(** * OppaTalent: the adaptive-learning and analytics core

    A shallow embedding of [src/analytics_engine.py] (class
    [AnalyticsEngine]) and [src/adaptive_engine.py] (class
    [AdaptiveEngine]), with the properties of the specification stated
    and settled against it.

    Conventions of the embedding.
    - Python [int] is [Z]; Python [float] (and the result of the true
      division [/]) is an exact rational [Q]: binary64 rounding is not
      modelled, the decimal literals of the source ([0.7], [0.2], ...)
      are the rationals they denote.
    - A Python [dict] with string keys whose iteration order is observed
      is an association list in insertion order ([dict V]); the keyed
      stores of the engines and the quiz configuration are [gmap]s.
    - A dictionary read with [.get(key, default)] or tested with
      [key in d] is a record of [option] fields: [None] is an absent key.
    - A Python exception is the [None] of an [option] result.
    - The clock ([datetime.now()], [datetime.utcnow()]) is an explicit
      argument. *)

From Stdlib Require Import ZArith QArith Qround String Ascii List Bool Lia Lqa.
From stdpp Require Import gmap strings.

Import ListNotations.
Local Open Scope string_scope.
Local Open Scope list_scope.
Local Open Scope Z_scope.

(** ** Python primitives *)

Module Py.

(** [a < b] and [a <= b] on numbers. *)
Definition ltb (a b : Q) : bool := negb (Qle_bool b a).
Definition leb (a b : Q) : bool := Qle_bool a b.

(** The built-ins [max(a, b)] and [min(a, b)]: the first argument wins
    a tie. *)
Definition max (a b : Q) : Q := if ltb a b then b else a.
Definition min (a b : Q) : Q := if ltb b a then b else a.

(** True division [a / b]; [ZeroDivisionError] is [None]. *)
Definition div (a b : Q) : option Q :=
  if Qeq_bool b 0 then None else Some (a / b)%Q.

(** [int(x)] on a number: truncation toward zero. *)
Definition int (x : Q) : Z :=
  if Qle_bool 0 x then Qfloor x else Qceiling x.

(** [sum(xs)]. *)
Definition sum (xs : list Q) : Q := fold_left Qplus xs 0%Q.

(** [sum(1 for x in xs if p(x))] and [len(xs)] as integers. *)
Definition count {A} (p : A -> bool) (xs : list A) : Z :=
  Z.of_nat (length (List.filter p xs)).
Definition len {A} (xs : list A) : Z := Z.of_nat (length xs).

(** [xs[:n]] and [xs[n:]] for [n >= 0]; [xs[-n:]] for [n > 0]. *)
Definition take {A} (n : nat) (xs : list A) : list A := firstn n xs.
Definition drop {A} (n : nat) (xs : list A) : list A := skipn n xs.
Definition last_n {A} (n : nat) (xs : list A) : list A :=
  skipn (length xs - n) xs.

(** [xs[i]] with Python's negative indices; [IndexError] is [None]. *)
Definition index {A} (xs : list A) (i : Z) : option A :=
  let n := Z.of_nat (length xs) in
  if (0 <=? i) && (i <? n) then nth_error xs (Z.to_nat i)
  else if (- n <=? i) && (i <? 0) then nth_error xs (Z.to_nat (i + n))
  else None.

(** [sep.join(xs)]. *)
Fixpoint join (sep : string) (xs : list string) : string :=
  match xs with
  | [] => ""
  | [x] => x
  | x :: rest => x +:+ sep +:+ join sep rest
  end.

(** [sorted(xs, key=key, reverse=True)]: a stable sort, descending. An
    element goes in front of the first one whose key is not greater. *)
Fixpoint insert_desc {A} (key : A -> Q) (x : A) (xs : list A) : list A :=
  match xs with
  | [] => [x]
  | y :: ys =>
      if ltb (key x) (key y) then y :: insert_desc key x ys
      else x :: y :: ys
  end.

Definition sorted_desc {A} (key : A -> Q) (xs : list A) : list A :=
  fold_right (insert_desc key) [] xs.

(** [numpy.polyfit(arange(len(ys)), ys, 1)[0]]: the least-squares slope
    of [ys] against the indices [0, 1, ...], in exact arithmetic. *)
Fixpoint indexed_from (i : Z) (ys : list Q) : list (Q * Q) :=
  match ys with
  | [] => []
  | y :: rest => (inject_Z i, y) :: indexed_from (i + 1) rest
  end.

Definition polyfit_slope (ys : list Q) : Q :=
  let pts := indexed_from 0 ys in
  let n := inject_Z (len ys) in
  let sx := sum (map fst pts) in
  let sy := sum (map snd pts) in
  let sxy := sum (map (fun p => fst p * snd p)%Q pts) in
  let sxx := sum (map (fun p => fst p * fst p)%Q pts) in
  ((n * sxy - sx * sy) / (n * sxx - sx * sx))%Q.

(** [sum(xs)] on integers. *)
Definition isum (xs : list Z) : Z := fold_left Z.add xs 0.



End Py.

(** ** Dictionaries in insertion order *)

Definition dict (V : Type) : Type := list (string * V).

Module Dict.
Section Ops.
Context {V : Type}.

(** [d.get(k)] *)
Fixpoint get (k : string) (d : dict V) : option V :=
  match d with
  | [] => None
  | (k', v) :: rest => if String.eqb k k' then Some v else get k rest
  end.

(** [k in d] *)
Definition mem (k : string) (d : dict V) : bool :=
  match get k d with Some _ => true | None => false end.

(** [d[k] = v]: an existing key keeps its position, a new one is
    appended. *)
Fixpoint set (k : string) (v : V) (d : dict V) : dict V :=
  match d with
  | [] => [(k, v)]
  | (k', v') :: rest =>
      if String.eqb k k' then (k', v) :: rest else (k', v') :: set k v rest
  end.

Definition keys (d : dict V) : list string := map fst d.
Definition values (d : dict V) : list V := map snd d.

(** Keys are unique: what every Python dict satisfies. *)
Definition wf (d : dict V) : Prop := List.NoDup (keys d).

End Ops.
End Dict.

(** ** [datetime]: naive timestamps, ISO strings and differences *)

Module DateTime.

Record datetime : Type := mkDateTime {
  year : Z; month : Z; day : Z;
  hour : Z; minute : Z; second : Z; microsecond : Z
}.

Definition is_leap (y : Z) : bool :=
  (y mod 4 =? 0) && (negb (y mod 100 =? 0) || (y mod 400 =? 0)).

Definition days_in_month (y m : Z) : Z :=
  if m =? 2 then (if is_leap y then 29 else 28)
  else if (m =? 4) || (m =? 6) || (m =? 9) || (m =? 11) then 30
  else 31.

(** The range checks of the [datetime] constructor. *)
Definition valid (d : datetime) : bool :=
  (1 <=? year d) && (year d <=? 9999) &&
  (1 <=? month d) && (month d <=? 12) &&
  (1 <=? day d) && (day d <=? days_in_month (year d) (month d)) &&
  (0 <=? hour d) && (hour d <? 24) &&
  (0 <=? minute d) && (minute d <? 60) &&
  (0 <=? second d) && (second d <? 60) &&
  (0 <=? microsecond d) && (microsecond d <? 1000000).

(** *** [isoformat] *)

Definition digit_char (d : Z) : ascii := ascii_of_nat (48 + Z.to_nat d).

(** [w] decimal digits of [n], most significant first ([%0wd]). *)
Fixpoint zpad (w : nat) (n : Z) : string :=
  match w with
  | O => ""
  | S w' => String (digit_char (n / 10 ^ Z.of_nat w'))
                   (zpad w' (n mod 10 ^ Z.of_nat w'))
  end.

(** [d.isoformat()]: [YYYY-MM-DDTHH:MM:SS], followed by [.ffffff] when
    the microsecond is not zero. *)
Definition isoformat (d : datetime) : string :=
  zpad 4 (year d) +:+ "-" +:+ zpad 2 (month d) +:+ "-" +:+ zpad 2 (day d)
  +:+ "T" +:+ zpad 2 (hour d) +:+ ":" +:+ zpad 2 (minute d)
  +:+ ":" +:+ zpad 2 (second d)
  +:+ (if microsecond d =? 0 then "" else "." +:+ zpad 6 (microsecond d)).

(** *** [fromisoformat]

    The reader of [YYYY-MM-DD[*HH[:MM[:SS[.fff[fff]]]]]] for naive
    timestamps: fixed-width decimal fields, any single character as the
    date/time separator, and the constructor's range checks at the end.
    [ValueError] is [None]. *)

Definition digit_val (c : ascii) : option Z :=
  let n := Z.of_nat (nat_of_ascii c) in
  if (48 <=? n) && (n <=? 57) then Some (n - 48) else None.

Fixpoint parse_digits (w : nat) (acc : Z) (s : string) : option (Z * string) :=
  match w with
  | O => Some (acc, s)
  | S w' =>
      match s with
      | String c rest =>
          match digit_val c with
          | Some v => parse_digits w' (10 * acc + v) rest
          | None => None
          end
      | EmptyString => None
      end
  end.

Definition expect (c : ascii) (s : string) : option string :=
  match s with
  | String c' rest => if Ascii.eqb c c' then Some rest else None
  | EmptyString => None
  end.

(** The fraction: exactly three or exactly six digits after the dot. *)
Definition parse_fraction (s : string) : option Z :=
  match parse_digits 6 0 s with
  | Some (us, EmptyString) => Some us
  | _ =>
      match parse_digits 3 0 s with
      | Some (ms, EmptyString) => Some (ms * 1000)
      | _ => None
      end
  end.

(** [HH[:MM[:SS[.fff[fff]]]]] *)
Definition parse_time (s : string) : option (Z * Z * Z * Z) :=
  match parse_digits 2 0 s with
  | None => None
  | Some (hh, EmptyString) => Some (hh, 0, 0, 0)
  | Some (hh, s1) =>
      match expect ":" s1 with
      | None => None
      | Some s2 =>
          match parse_digits 2 0 s2 with
          | None => None
          | Some (mm, EmptyString) => Some (hh, mm, 0, 0)
          | Some (mm, s3) =>
              match expect ":" s3 with
              | None => None
              | Some s4 =>
                  match parse_digits 2 0 s4 with
                  | None => None
                  | Some (ss, EmptyString) => Some (hh, mm, ss, 0)
                  | Some (ss, s5) =>
                      match expect "." s5 with
                      | None => None
                      | Some s6 =>
                          match parse_fraction s6 with
                          | Some us => Some (hh, mm, ss, us)
                          | None => None
                          end
                      end
                  end
              end
          end
      end
  end.

Definition parse_date (s : string) : option (Z * Z * Z * string) :=
  match parse_digits 4 0 s with
  | None => None
  | Some (y, s1) =>
      match expect "-" s1 with
      | None => None
      | Some s2 =>
          match parse_digits 2 0 s2 with
          | None => None
          | Some (m, s3) =>
              match expect "-" s3 with
              | None => None
              | Some s4 =>
                  match parse_digits 2 0 s4 with
                  | None => None
                  | Some (d, s5) => Some (y, m, d, s5)
                  end
              end
          end
      end
  end.

Definition checked (d : datetime) : option datetime :=
  if valid d then Some d else None.

Definition fromisoformat (s : string) : option datetime :=
  match parse_date s with
  | None => None
  | Some (y, m, d, EmptyString) => checked (mkDateTime y m d 0 0 0 0)
  | Some (y, m, d, String _ EmptyString) => checked (mkDateTime y m d 0 0 0 0)
  | Some (y, m, d, String _ t) =>
      match parse_time t with
      | Some (hh, mm, ss, us) => checked (mkDateTime y m d hh mm ss us)
      | None => None
      end
  end.

(** *** Differences: [a - b] is a normalised [timedelta] *)

Record timedelta : Type := mkTimeDelta {
  days : Z;          (* any sign *)
  seconds : Z;       (* 0 <= seconds < 86400 *)
  microseconds : Z   (* 0 <= microseconds < 1000000 *)
}.

Definition days_before_year (y : Z) : Z :=
  let p := y - 1 in p * 365 + p / 4 - p / 100 + p / 400.

Definition days_before_month (y m : Z) : Z :=
  nth (Z.to_nat m) [0; 0; 31; 59; 90; 120; 151; 181; 212; 243; 273; 304; 334] 0
  + (if (2 <? m) && is_leap y then 1 else 0).

Definition toordinal (d : datetime) : Z :=
  days_before_year (year d) + days_before_month (year d) (month d) + day d.

Definition normalise (d s us : Z) : timedelta :=
  let total_s := d * 86400 + s + us / 1000000 in
  mkTimeDelta (total_s / 86400) (total_s mod 86400) (us mod 1000000).

(** [a - b] *)
Definition sub (a b : datetime) : timedelta :=
  normalise (toordinal a - toordinal b)
            ((second a + minute a * 60 + hour a * 3600)
             - (second b + minute b * 60 + hour b * 3600))
            (microsecond a - microsecond b).

(** [td.total_seconds()], which is not what [td.seconds] is. *)
Definition total_seconds (td : timedelta) : Q :=
  (inject_Z (days td * 86400 + seconds td)
   + inject_Z (microseconds td) / inject_Z 1000000)%Q.

End DateTime.

(** ** [AnalyticsEngine] (src/analytics_engine.py) *)

Module Analytics.
Import DateTime.

(** One answer of a submission ([answer_data] of [track_answer], an
    element of [answers] of [generate_report]); every key is optional. *)
Record AnswerData : Type := mkAnswer {
  is_correct : option bool;
  user_answer : option string;
  time_taken : option Q;
  topic : option string;
  bloom_level : option string;
  question_type : option string
}.

(** The truth value of [a.get('is_correct')]. *)
Definition got_correct (a : AnswerData) : bool :=
  match is_correct a with Some true => true | _ => false end.

(** A recorded event; [metadata] is an uninterpreted payload. *)
Inductive Event : Type :=
| quiz_generated (user_id timestamp metadata : string)
| answer_submitted (user_id question_id timestamp : string) (data : AnswerData).

Definition timestamp_of (e : Event) : string :=
  match e with
  | quiz_generated _ ts _ => ts
  | answer_submitted _ _ ts _ => ts
  end.

Record QuestionAnalytics : Type := mkQuestionAnalytics {
  attempts : Z;
  correct : Z;
  average_time : Q;
  difficulty_rating : list Q;
  common_mistakes : dict Z
}.

Record Patterns : Type := mkPatterns {
  rushing : bool; fatigue : bool; guessing : bool;
  consistent : bool; improving : bool; declining : bool
}.

Record Report : Type := mkReport {
  r_quiz_id : string;
  r_timestamp : string;
  r_total_questions : Z;
  r_time_taken : option Z;
  r_answers : list AnswerData;
  r_correct_answers : Z;
  r_incorrect_answers : Z;
  r_overall_score : Q;
  r_percentage : Q;
  r_average_time : option Q;       (* key absent: [None] *)
  r_time_per_correct : option Q;   (* key absent: [None] *)
  r_topic_scores : dict Q;
  r_bloom_scores : dict Q;
  r_type_scores : dict Q;
  r_patterns : Patterns;
  r_insights : list string;
  r_longest_correct_streak : Z;
  r_longest_incorrect_streak : Z;
  r_performance_trend : string
}.

Record SessionSummary : Type := mkSession {
  start_time : string;
  end_time : string;
  questions_answered : Z;
  correct_answers : Z;
  topic_performance : dict Q;
  bloom_performance : dict Q;
  accuracy : Q
}.

Record History : Type := mkHistory {
  h_user_id : string;
  recent_sessions : list SessionSummary
}.

Record AnalyticsEngine : Type := mkEngine {
  sessions : gmap string (list Event);
  quiz_results : gmap string Report;
  question_analytics : gmap string QuestionAnalytics
}.

(** [__init__] *)
Definition init : AnalyticsEngine := mkEngine ∅ ∅ ∅.

(** [self.sessions[user_id].append(event)] on the [defaultdict(list)]. *)
Definition append_event (self : AnalyticsEngine) (user_id : string)
    (event : Event) : AnalyticsEngine :=
  mkEngine
    (<[user_id := default [] (sessions self !! user_id) ++ [event]]> (sessions self))
    (quiz_results self) (question_analytics self).

Definition track_quiz_generation (self : AnalyticsEngine) (now : datetime)
    (user_id metadata : string) : AnalyticsEngine :=
  append_event self user_id (quiz_generated user_id (isoformat now) metadata).

Definition fresh_question : QuestionAnalytics :=
  mkQuestionAnalytics 0 0 0 [] [].

(** The per-question part of [track_answer]: the entry after the call. *)
Definition update_question (analytics : QuestionAnalytics)
    (answer_data : AnswerData) : option QuestionAnalytics :=
  let n := attempts analytics + 1 in
  let correct' :=
    if got_correct answer_data then correct analytics + 1
    else correct analytics in
  let mistakes' :=
    if got_correct answer_data then common_mistakes analytics
    else match user_answer answer_data with
         | Some wrong_answer =>
             if String.eqb wrong_answer "" then common_mistakes analytics
             else Dict.set wrong_answer
                    (default 0 (Dict.get wrong_answer (common_mistakes analytics)) + 1)
                    (common_mistakes analytics)
         | None => common_mistakes analytics
         end in
  match time_taken answer_data with
  | Some t =>
      avg ← Py.div (average_time analytics * inject_Z (n - 1) + t) (inject_Z n);
      Some (mkQuestionAnalytics n correct' avg
              (difficulty_rating analytics) mistakes')
  | None =>
      Some (mkQuestionAnalytics n correct' (average_time analytics)
              (difficulty_rating analytics) mistakes')
  end.

Definition track_answer (self : AnalyticsEngine) (now : datetime)
    (user_id question_id : string) (answer_data : AnswerData)
    : option AnalyticsEngine :=
  let analytics :=
    default fresh_question (question_analytics self !! question_id) in
  analytics' ← update_question analytics answer_data;
  Some (append_event
          (mkEngine (sessions self) (quiz_results self)
             (<[question_id := analytics']> (question_analytics self)))
          user_id
          (answer_submitted user_id question_id (isoformat now) answer_data)).

(** The tallies [{'correct': c, 'total': t}] per key, as the three loops
    of [generate_report] and the loop of [_process_session] build them;
    a pair is [(correct, total)]. *)
Definition tally_step (key : AnswerData -> string) (acc : dict (Z * Z))
    (a : AnswerData) : dict (Z * Z) :=
  let '(c, t) := default (0, 0) (Dict.get (key a) acc) in
  Dict.set (key a) (if got_correct a then c + 1 else c, t + 1) acc.

Definition tally (key : AnswerData -> string) (answers : list AnswerData)
    : dict (Z * Z) :=
  fold_left (tally_step key) answers [].

(** [{k: d['correct'] / d['total'] for ...}], unguarded. *)
Fixpoint ratios (d : dict (Z * Z)) : option (dict Q) :=
  match d with
  | [] => Some []
  | (k, (c, t)) :: rest =>
      q ← Py.div (inject_Z c) (inject_Z t);
      qs ← ratios rest;
      Some ((k, q) :: qs)
  end.

(** [{k: d['correct'] / d['total'] if d['total'] > 0 else 0 for ...}] *)
Definition guarded_ratios (d : dict (Z * Z)) : dict Q :=
  map (fun '(k, (c, t)) =>
         (k, if 0 <? t then (inject_Z c / inject_Z t)%Q else 0%Q)) d.

Definition accuracy_of (xs : list AnswerData) : option Q :=
  Py.div (inject_Z (Py.count got_correct xs)) (inject_Z (Py.len xs)).

Definition no_patterns : Patterns :=
  mkPatterns false false false false false false.

(** Adjacent positions of [correctness] that differ. *)
Fixpoint changes (correctness : list bool) : Z :=
  match correctness with
  | a :: (b :: _) as rest => (if Bool.eqb b a then 0 else 1) + changes rest
  | _ => 0
  end.

(** The four checks of [_identify_patterns], in the order of the source. *)

(** Rushing: [times and statistics.mean(times) < 10]. *)
Definition rushing_check (answers : list AnswerData) : option bool :=
  let times := omap time_taken answers in
  match times with
  | [] => Some false
  | _ =>
      m ← Py.div (Py.sum times) (inject_Z (Py.len times));
      Some (Py.ltb m 10)
  end.

(** Fatigue: the flags [(fatigue, declining, improving)]. *)
Definition halves_check (answers : list AnswerData)
    : option (bool * bool * bool) :=
  if 5 <=? Py.len answers then
    let half := (length answers / 2)%nat in
    let first_half := Py.take half answers in
    let second_half := Py.drop half answers in
    first_accuracy ← accuracy_of first_half;
    second_accuracy ← accuracy_of second_half;
    if Py.ltb second_accuracy (first_accuracy - (2 # 10))%Q
    then Some (true, true, false)
    else if Py.ltb (first_accuracy + (2 # 10))%Q second_accuracy
    then Some (false, false, true)
    else Some (false, false, false)
  else Some (false, false, false).

(** Guessing, on the multiple-choice answers. *)
Definition guessing_check (answers : list AnswerData) : option bool :=
  let mc_answers :=
    List.filter (fun a => match question_type a with
                          | Some ty => String.eqb ty "multiple_choice"
                          | None => false
                          end) answers in
  match mc_answers with
  | [] => Some false
  | _ =>
      mc_accuracy ← accuracy_of mc_answers;
      Some (Py.leb (2 # 10) mc_accuracy && Py.leb mc_accuracy (3 # 10))
  end.

(** Consistency. *)
Definition consistent_check (answers : list AnswerData) : bool :=
  if 3 <=? Py.len answers then
    let correctness := map (fun a => default false (is_correct a)) answers in
    Py.leb (inject_Z (changes correctness))
           (inject_Z (Py.len correctness) * (3 # 10))%Q
  else false.

Definition _identify_patterns (answers : list AnswerData) : option Patterns :=
  match answers with
  | [] => Some no_patterns
  | _ =>
      rushing' ← rushing_check answers;
      flags ← halves_check answers;
      guessing' ← guessing_check answers;
      let consistent' := consistent_check answers in
      let '(fatigue', declining', improving') := flags in
      Some (mkPatterns rushing' fatigue' guessing' consistent' improving' declining')
  end.

(** [_generate_insights], on the report entries it reads. *)
Definition _generate_insights (overall_score : Q) (topic_scores bloom_scores : dict Q)
    (patterns : Patterns) (average_time : option Q) : list string :=
  let score := overall_score in
  let overall :=
    if Py.leb (9 # 10) score
    then ["Excellent performance! You've mastered this material."]
    else if Py.leb (7 # 10) score
    then ["Good understanding. Focus on the topics you missed."]
    else if Py.leb (5 # 10) score
    then ["Developing understanding. More practice recommended."]
    else ["Significant gaps identified. Consider reviewing the material."] in
  let weak_topics :=
    map fst (List.filter (fun kv => Py.ltb (snd kv) (6 # 10)) topic_scores) in
  let weak :=
    match weak_topics with
    | [] => []
    | _ => ["Focus on: " +:+ Py.join ", " (Py.take 3 weak_topics)]
    end in
  let strong_topics :=
    map fst (List.filter (fun kv => Py.leb (8 # 10) (snd kv)) topic_scores) in
  let strong :=
    match strong_topics with
    | [] => []
    | _ => ["Strong in: " +:+ Py.join ", " (Py.take 3 strong_topics)]
    end in
  let bloom (level msg : string) : list string :=
    if Py.ltb (default 1%Q (Dict.get level bloom_scores)) (6 # 10)
    then [msg] else [] in
  let blooms :=
    bloom "remember" "Strengthen factual knowledge and memorization."
    ++ bloom "understand" "Work on comprehension and explanation skills."
    ++ bloom "apply" "Practice applying concepts to new situations."
    ++ bloom "analyze" "Develop analytical and critical thinking skills." in
  let flag (b : bool) (msg : string) : list string :=
    if b then [msg] else [] in
  let pats :=
    flag (rushing patterns) "Take more time to read questions carefully."
    ++ flag (fatigue patterns) "Consider taking breaks during longer quizzes."
    ++ flag (guessing patterns) "Review the material before attempting quizzes."
    ++ flag (improving patterns) "Great progress! You're warming up nicely." in
  let avg_time := default 0%Q average_time in
  let timing :=
    if Py.ltb 120 avg_time
    then ["You're being thorough, but try to improve speed."]
    else if Py.ltb avg_time 20
    then ["Consider spending more time on each question."]
    else [] in
  overall ++ weak ++ strong ++ blooms ++ pats ++ timing.

Definition _calculate_streak (answers : list AnswerData) (correct : bool) : Z :=
  match answers with
  | [] => 0
  | _ =>
      fst (fold_left
             (fun '(max_streak, current_streak) answer =>
                if Bool.eqb (default false (is_correct answer)) correct
                then (Z.max max_streak (current_streak + 1), current_streak + 1)
                else (max_streak, 0))
             answers (0, 0))
  end.

(** The rolling accuracies of [_calculate_trend]. *)
Fixpoint window_accuracies (window_size : Z) (starts : list nat)
    (answers : list AnswerData) : option (list Q) :=
  match starts with
  | [] => Some []
  | i :: rest =>
      let window := Py.take (Z.to_nat window_size) (Py.drop i answers) in
      a ← Py.div (inject_Z (Py.count got_correct window)) (inject_Z window_size);
      accs ← window_accuracies window_size rest answers;
      Some (a :: accs)
  end.

Definition _calculate_trend (answers : list AnswerData) : option string :=
  if Py.len answers <? 3 then Some "insufficient_data"
  else
    let window_size := Z.min 3 (Py.len answers / 3) in
    accuracies ←
      window_accuracies window_size
        (seq 0 (Z.to_nat (Py.len answers - window_size + 1))) answers;
    match accuracies with
    | [] => Some "stable"
    | _ =>
        let slope := Py.polyfit_slope accuracies in
        if Py.ltb (1 # 10) slope then Some "improving"
        else if Py.ltb slope (- (1 # 10)) then Some "declining"
        else Some "stable"
    end.

Definition generate_report (self : AnalyticsEngine) (now : datetime)
    (quiz_id : string) (answers : list AnswerData) (time_taken : option Z)
    : option (AnalyticsEngine * Report) :=
  let total := Py.len answers in
  let correct_answers := Py.count got_correct answers in
  overall_score ←
    match answers with
    | [] => Some 0%Q
    | _ => Py.div (inject_Z correct_answers) (inject_Z total)
    end;
  time_metrics ←
    match time_taken with
    | Some t =>
        if negb (t =? 0) && negb (total =? 0) then
          average ← Py.div (inject_Z t) (inject_Z total);
          per_correct ←
            (if correct_answers =? 0 then Some 0%Q
             else Py.div (inject_Z t) (inject_Z correct_answers));
          Some (Some average, Some per_correct)
        else Some (None, None)
    | None => Some (None, None)
    end;
  topic_scores ←
    ratios (tally (fun a => default "General" (topic a)) answers);
  let bloom_scores :=
    guarded_ratios (tally (fun a => default "understand" (bloom_level a)) answers) in
  let type_scores :=
    guarded_ratios (tally (fun a => default "unknown" (question_type a)) answers) in
  patterns ← _identify_patterns answers;
  let insights :=
    _generate_insights overall_score topic_scores bloom_scores patterns
      (fst time_metrics) in
  let longest_correct := _calculate_streak answers true in
  let longest_incorrect := _calculate_streak answers false in
  trend ← _calculate_trend answers;
  let report :=
    mkReport quiz_id (isoformat now) total time_taken answers
      correct_answers (total - correct_answers) overall_score
      (overall_score * 100)%Q (fst time_metrics) (snd time_metrics)
      topic_scores bloom_scores type_scores patterns insights
      longest_correct longest_incorrect trend in
  Some (mkEngine (sessions self) (<[quiz_id := report]> (quiz_results self))
          (question_analytics self),
        report).

(** The answers of the [answer_submitted] events of a session. *)
Definition answers_of (events : list Event) : list AnswerData :=
  flat_map (fun e => match e with
                     | answer_submitted _ _ _ data => [data]
                     | quiz_generated _ _ _ => []
                     end) events.

(** [_process_session]; [events[0]] of an empty list is [None]. *)
Definition _process_session (events : list Event) : option SessionSummary :=
  first ← Py.index events 0;
  final ← Py.index events (-1);
  let answered := answers_of events in
  let questions := Py.len answered in
  let correct_count := Py.count got_correct answered in
  let topics := tally (fun a => default "General" (topic a)) answered in
  let blooms := tally (fun a => default "understand" (bloom_level a)) answered in
  let accuracy' :=
    if 0 <? questions then (inject_Z correct_count / inject_Z questions)%Q
    else 0%Q in
  Some (mkSession (timestamp_of first) (timestamp_of final) questions
          correct_count (guarded_ratios topics) (guarded_ratios blooms) accuracy').

(** The state of the grouping loop of [get_user_history]:
    [(sessions, current_session, last_timestamp)]. *)
Definition scan_state : Type :=
  (list SessionSummary * list Event * option datetime)%type.

(** The test [last_timestamp and (timestamp - last_timestamp).seconds > 3600]. *)
Definition new_session_test (last_timestamp : option datetime)
    (timestamp : datetime) : bool :=
  match last_timestamp with
  | Some l => 3600 <? seconds (sub timestamp l)
  | None => false
  end.

Definition scan_step (st : scan_state) (event : Event) : option scan_state :=
  let '(sessions, current_session, last_timestamp) := st in
  timestamp ← fromisoformat (timestamp_of event);
  closed ←
    (if new_session_test last_timestamp timestamp then
       match current_session with
       | [] => Some (sessions, [])
       | _ =>
           s ← _process_session current_session;
           Some (sessions ++ [s], [])
       end
     else Some (sessions, current_session));
  Some (fst closed, snd closed ++ [event], Some timestamp).

Fixpoint scan (st : scan_state) (events : list Event) : option scan_state :=
  match events with
  | [] => Some st
  | event :: rest =>
      st' ← scan_step st event;
      scan st' rest
  end.

(** The session summaries of an event list, before the cap. *)
Definition group_sessions (events : list Event) : option (list SessionSummary) :=
  st ← scan ([], [], None) events;
  let '(sessions, current_session, _) := st in
  match current_session with
  | [] => Some sessions
  | _ =>
      s ← _process_session current_session;
      Some (sessions ++ [s])
  end.

Definition get_user_history (self : AnalyticsEngine) (user_id : string)
    : option History :=
  match sessions self !! user_id with
  | None => Some (mkHistory user_id [])
  | Some user_sessions =>
      sessions ← group_sessions user_sessions;
      Some (mkHistory user_id (Py.last_n 10 sessions))
  end.












End Analytics.

(** ** [AdaptiveEngine] (src/adaptive_engine.py) *)

Module Adaptive.
Import DateTime.

Inductive PerformanceLevel : Type :=
| STRUGGLING | DEVELOPING | PROFICIENT | ADVANCED.

(** [level.value] *)
Definition level_value (level : PerformanceLevel) : string :=
  match level with
  | STRUGGLING => "struggling"
  | DEVELOPING => "developing"
  | PROFICIENT => "proficient"
  | ADVANCED => "advanced"
  end.

Record LearnerProfile : Type := mkProfile {
  user_id : string;
  total_questions_answered : Z;
  correct_answers : Z;
  topics_mastery : dict Q;
  bloom_performance : dict Q;
  average_time_per_question : Q;
  learning_velocity : Q;
  last_session : option datetime;
  strengths : list string;
  weaknesses : list string;
  preferred_question_types : list string
}.

(** [LearnerProfile(user_id=user_id)] *)
Definition new_profile (uid : string) : LearnerProfile :=
  mkProfile uid 0 0 [] [] 0 0 None [] [] [].

(** The entries of a session dictionary that the engine reads. *)
Record SessionDict : Type := mkSessionDict {
  s_questions_answered : option Z;
  s_correct_answers : option Z;
  s_topic_performance : option (dict Q);
  s_bloom_performance : option (dict Q);
  s_accuracy : option Q
}.

(** The [learning_history] argument. *)
Record HistoryDict : Type := mkHistoryDict {
  hd_user_id : option string;
  hd_recent_sessions : option (list SessionDict)
}.

(** The entries of a quiz report that [update_user_model] reads. *)
Record QuizReportDict : Type := mkQuizReportDict {
  q_total_questions : option Z;
  q_correct_answers : option Z;
  q_topic_scores : option (dict Q);
  q_bloom_scores : option (dict Q);
  q_average_time : option Q
}.



Definition of_report (r : Analytics.Report) : QuizReportDict :=
  mkQuizReportDict (Some (Analytics.r_total_questions r))
    (Some (Analytics.r_correct_answers r))
    (Some (Analytics.r_topic_scores r))
    (Some (Analytics.r_bloom_scores r))
    (Analytics.r_average_time r).

(** A value of the quiz configuration. A [bool] counts as a number, as
    in Python. *)
Inductive Value : Type :=
| VNum (q : Q)
| VBool (b : bool)
| VStr (s : string)
| VList (l : list string)
| VDict (d : dict Q).

Definition as_number (v : Value) : option Q :=
  match v with
  | VNum q => Some q
  | VBool b => Some (if b then 1%Q else 0%Q)
  | _ => None
  end.

Fixpoint chars (s : string) : list string :=
  match s with
  | EmptyString => []
  | String c rest => String c EmptyString :: chars rest
  end.

(** [for x in v]; a number is not iterable. *)
Definition as_iterable (v : Value) : option (list string) :=
  match v with
  | VList l => Some l
  | VStr s => Some (chars s)
  | VDict d => Some (Dict.keys d)
  | _ => None
  end.

Record AdaptiveEngine : Type := mkEngine {
  learner_profiles : gmap string LearnerProfile
}.

Definition init : AdaptiveEngine := mkEngine ∅.

Definition repetition_intervals : list Z := [1; 3; 7; 14; 30; 90].

Definition thresholds (level : PerformanceLevel) : Q :=
  match level with
  | STRUGGLING => 4 # 10
  | DEVELOPING => 6 # 10
  | PROFICIENT => 8 # 10
  | ADVANCED => 95 # 100
  end.

Definition get_or_create_profile (self : AdaptiveEngine) (uid : string)
    : AdaptiveEngine * LearnerProfile :=
  match learner_profiles self !! uid with
  | Some profile => (self, profile)
  | None =>
      (mkEngine (<[uid := new_profile uid]> (learner_profiles self)),
       new_profile uid)
  end.

(** The profile object is shared with the store: a change to it is a
    change to the entry it was read from. *)
Definition store_profile (self : AdaptiveEngine) (uid : string)
    (profile : LearnerProfile) : AdaptiveEngine :=
  mkEngine (<[uid := profile]> (learner_profiles self)).

(** One step of the loops over [topic_performance], [bloom_performance],
    [topic_scores] and [bloom_scores]: a new key takes the observation, a
    known one the weighted average. *)
Definition blend (w_old w_new : Q) (scores : dict Q) (obs : string * Q) : dict Q :=
  match Dict.get (fst obs) scores with
  | None => Dict.set (fst obs) (snd obs) scores
  | Some old => Dict.set (fst obs) (w_old * old + w_new * snd obs)%Q scores
  end.

Definition blend_all (w_old w_new : Q) (scores observed : dict Q) : dict Q :=
  fold_left (blend w_old w_new) observed scores.

Definition _identify_strengths_weaknesses (profile : LearnerProfile)
    : LearnerProfile :=
  match topics_mastery profile with
  | [] => profile
  | _ =>
      let sorted_topics := Py.sorted_desc snd (topics_mastery profile) in
      let strengths' :=
        map fst (List.filter (fun tm => Py.ltb (7 # 10) (snd tm))
                   (Py.take 3 sorted_topics)) in
      let weaknesses' :=
        map fst (List.filter (fun tm => Py.ltb (snd tm) (6 # 10))
                   (Py.last_n 3 sorted_topics)) in
      mkProfile (user_id profile) (total_questions_answered profile)
        (correct_answers profile) (topics_mastery profile)
        (bloom_performance profile) (average_time_per_question profile)
        (learning_velocity profile) (last_session profile)
        strengths' weaknesses' (preferred_question_types profile)
  end.

Definition _calculate_learning_velocity (history : HistoryDict) : Q :=
  match hd_recent_sessions history with
  | None => 0
  | Some sessions =>
      if Py.len sessions <? 2 then 0
      else
        let performances := map (fun s => default 0%Q (s_accuracy s)) sessions in
        if Py.len performances <? 2 then 0
        else Py.polyfit_slope performances
  end.

(** The body of the loop over [history['recent_sessions']]. *)
Definition apply_session (profile : LearnerProfile) (session : SessionDict)
    : LearnerProfile :=
  mkProfile (user_id profile)
    (total_questions_answered profile + default 0 (s_questions_answered session))
    (correct_answers profile + default 0 (s_correct_answers session))
    (blend_all (7 # 10) (3 # 10) (topics_mastery profile)
       (default [] (s_topic_performance session)))
    (blend_all (7 # 10) (3 # 10) (bloom_performance profile)
       (default [] (s_bloom_performance session)))
    (average_time_per_question profile) (learning_velocity profile)
    (last_session profile) (strengths profile) (weaknesses profile)
    (preferred_question_types profile).

Definition set_velocity (profile : LearnerProfile) (v : Q) : LearnerProfile :=
  mkProfile (user_id profile) (total_questions_answered profile)
    (correct_answers profile) (topics_mastery profile)
    (bloom_performance profile) (average_time_per_question profile)
    v (last_session profile) (strengths profile) (weaknesses profile)
    (preferred_question_types profile).

Definition set_last_session (profile : LearnerProfile) (now : datetime)
    : LearnerProfile :=
  mkProfile (user_id profile) (total_questions_answered profile)
    (correct_answers profile) (topics_mastery profile)
    (bloom_performance profile) (average_time_per_question profile)
    (learning_velocity profile) (Some now) (strengths profile)
    (weaknesses profile) (preferred_question_types profile).

Definition _update_profile_from_history (profile : LearnerProfile)
    (history : HistoryDict) (now : datetime) : LearnerProfile :=
  let p1 :=
    match hd_recent_sessions history with
    | Some sessions => fold_left apply_session sessions profile
    | None => profile
    end in
  let p2 :=
    if 0 <? total_questions_answered p1
    then set_velocity p1 (_calculate_learning_velocity history)
    else p1 in
  set_last_session (_identify_strengths_weaknesses p2) now.

Definition _calculate_performance_level (profile : LearnerProfile)
    : PerformanceLevel :=
  if total_questions_answered profile =? 0 then DEVELOPING
  else
    let accuracy :=
      (inject_Z (correct_answers profile)
       / inject_Z (total_questions_answered profile))%Q in
    if Py.leb (thresholds ADVANCED) accuracy then ADVANCED
    else if Py.leb (thresholds PROFICIENT) accuracy then PROFICIENT
    else if Py.leb (thresholds DEVELOPING) accuracy then DEVELOPING
    else STRUGGLING.

Definition distributions (level : PerformanceLevel) : dict Q :=
  match level with
  | STRUGGLING =>
      [("remember", 4 # 10); ("understand", 4 # 10);
       ("apply", 15 # 100); ("analyze", 5 # 100)]
  | DEVELOPING =>
      [("remember", 25 # 100); ("understand", 35 # 100);
       ("apply", 25 # 100); ("analyze", 15 # 100)]
  | PROFICIENT =>
      [("remember", 15 # 100); ("understand", 25 # 100);
       ("apply", 35 # 100); ("analyze", 25 # 100)]
  | ADVANCED =>
      [("remember", 5 # 100); ("understand", 15 # 100);
       ("apply", 30 # 100); ("analyze", 30 # 100);
       ("evaluate", 10 # 100); ("create", 10 # 100)]
  end%Q.

(** The body of the fine-tuning loop:
    [if performance < 0.5 and bloom_level in d: d[bloom_level] *= 1.2]. *)
Definition boost_step (d : dict Q) (item : string * Q) : dict Q :=
  if Py.ltb (snd item) (5 # 10) then
    match Dict.get (fst item) d with
    | Some w => Dict.set (fst item) (w * (12 # 10))%Q d
    | None => d
    end
  else d.

Definition boost (d bloom : dict Q) : dict Q := fold_left boost_step bloom d.

(** [{k: v/total for k, v in d.items()}] *)
Fixpoint divide_all (total : Q) (d : dict Q) : option (dict Q) :=
  match d with
  | [] => Some []
  | (k, v) :: rest =>
      q ← Py.div v total;
      qs ← divide_all total rest;
      Some ((k, q) :: qs)
  end.

Definition normalize (d : dict Q) : option (dict Q) :=
  divide_all (Py.sum (Dict.values d)) d.

(** The distribution that [_adjust_difficulty_distribution] computes. *)
Definition adjusted_distribution (level : PerformanceLevel)
    (profile : LearnerProfile) : option (dict Q) :=
  normalize (boost (distributions level) (bloom_performance profile)).

Definition _adjust_difficulty_distribution (config : gmap string Value)
    (level : PerformanceLevel) (profile : LearnerProfile)
    : option (gmap string Value) :=
  d ← adjusted_distribution level profile;
  Some (<["difficulty_distribution" := VDict d]> config).

(** A candidate of [topics_to_review]. *)
Record Review : Type := mkReview {
  rv_topic : string;
  rv_priority : Q;
  rv_reason : string
}.

(** The topics due for spaced repetition; [IndexError] is [None]. *)
Fixpoint due_topics (days_since_last : Z) (mastery : dict Q)
    : option (list Review) :=
  match mastery with
  | [] => Some []
  | (topic, m) :: rest =>
      let interval_index :=
        Z.min (Py.int (m * inject_Z (Py.len repetition_intervals))%Q)
              (Py.len repetition_intervals - 1) in
      review_interval ← Py.index repetition_intervals interval_index;
      more ← due_topics days_since_last rest;
      Some (if review_interval <=? days_since_last
            then mkReview topic (5 # 10) "spaced_repetition" :: more
            else more)
  end.

Definition weak_topics (mastery : dict Q) : list Review :=
  map (fun tm => mkReview (fst tm) (1 - snd tm)%Q "weakness")
      (List.filter (fun tm => Py.ltb (snd tm) (6 # 10)) mastery).

(** The list that becomes [config['focus_topics']]. *)
Definition focus_topics (profile : LearnerProfile) (now : datetime)
    : option (list string) :=
  spaced ←
    match last_session profile with
    | Some last =>
        due_topics (days (sub now last)) (topics_mastery profile)
    | None => Some []
    end;
  let topics_to_review := weak_topics (topics_mastery profile) ++ spaced in
  Some (map rv_topic (Py.take 5 (Py.sorted_desc rv_priority topics_to_review))).

Definition _select_adaptive_topics (config : gmap string Value)
    (profile : LearnerProfile) (now : datetime) : option (gmap string Value) :=
  topics ← focus_topics profile now;
  Some (<["focus_topics" := VList topics]> config).

Definition _adjust_question_count (config : gmap string Value)
    (profile : LearnerProfile) : option (gmap string Value) :=
  let base_questions := default (VNum 10) (config !! "num_questions") in
  let avg := average_time_per_question profile in
  config1 ←
    (if Py.ltb 0 avg then
       if Py.ltb 120 avg then
         n ← as_number base_questions;
         Some (<["num_questions" := VNum (Py.max 5 (n - 2))]> config)
       else if Py.ltb avg 30 then
         n ← as_number base_questions;
         Some (<["num_questions" := VNum (Py.min 20 (n + 2))]> config)
       else Some config
     else Some config);
  if Py.ltb (1 # 10) (learning_velocity profile) then
    n ← as_number base_questions;
    Some (<["num_questions" := VNum (Py.min 20 (n + 3))]> config1)
  else if Py.ltb (learning_velocity profile) (- (1 # 10)) then
    n ← as_number base_questions;
    Some (<["num_questions" := VNum (Py.max 5 (n - 3))]> config1)
  else Some config1.

(** [q_type in profile.preferred_question_types] *)
Definition preferred (profile : LearnerProfile) (q_type : string) : bool :=
  existsb (String.eqb q_type) (preferred_question_types profile).

Definition _select_question_types (config : gmap string Value)
    (profile : LearnerProfile) : option (gmap string Value) :=
  match preferred_question_types profile with
  | [] => Some config
  | _ =>
      types ← as_iterable
                (default (VList ["multiple_choice"; "short_answer"])
                   (config !! "question_types"));
      let weighted_types :=
        flat_map (fun q_type => if preferred profile q_type
                                then [q_type; q_type] else [q_type]) types in
      Some (<["question_types" := VList weighted_types]> config)
  end.

(** [adjust_config]. The clock is read twice: by
    [_update_profile_from_history] ([now_update]) and by
    [_select_adaptive_topics] ([now_select]). The result is the engine
    with the updated profile and the adjusted configuration. *)
Definition adjust_config (self : AdaptiveEngine) (config : gmap string Value)
    (learning_history : HistoryDict) (now_update now_select : datetime)
    : option (AdaptiveEngine * gmap string Value) :=
  let uid := default "anonymous" (hd_user_id learning_history) in
  let '(self1, profile0) := get_or_create_profile self uid in
  let profile := _update_profile_from_history profile0 learning_history now_update in
  let self2 := store_profile self1 uid profile in
  let performance_level := _calculate_performance_level profile in
  config1 ← _adjust_difficulty_distribution config performance_level profile;
  config2 ← _select_adaptive_topics config1 profile now_select;
  config3 ← _adjust_question_count config2 profile;
  config4 ← _select_question_types config3 profile;
  Some (self2, config4).

(** The profile after [update_user_model]. *)
Definition apply_report (profile : LearnerProfile) (quiz_report : QuizReportDict)
    (now : datetime) : LearnerProfile :=
  let average' :=
    match q_average_time quiz_report with
    | Some t =>
        if Qeq_bool (average_time_per_question profile) 0 then t
        else ((7 # 10) * average_time_per_question profile + (3 # 10) * t)%Q
    | None => average_time_per_question profile
    end in
  _identify_strengths_weaknesses
    (mkProfile (user_id profile)
       (total_questions_answered profile + default 0 (q_total_questions quiz_report))
       (correct_answers profile + default 0 (q_correct_answers quiz_report))
       (blend_all (6 # 10) (4 # 10) (topics_mastery profile)
          (default [] (q_topic_scores quiz_report)))
       (blend_all (6 # 10) (4 # 10) (bloom_performance profile)
          (default [] (q_bloom_scores quiz_report)))
       average' (learning_velocity profile) (Some now)
       (strengths profile) (weaknesses profile)
       (preferred_question_types profile)).

Definition update_user_model (self : AdaptiveEngine) (uid : string)
    (quiz_report : QuizReportDict) (now : datetime) : AdaptiveEngine :=
  let '(self1, profile) := get_or_create_profile self uid in
  store_profile self1 uid (apply_report profile quiz_report now).

(** The record of [export_profile], as [import_profile] reads it: every
    key but [user_id] through [.get]. *)
Record ProfileData : Type := mkProfileData {
  pd_user_id : option string;
  pd_total_questions : option Z;
  pd_correct_answers : option Z;
  pd_accuracy : option Q;
  pd_topics_mastery : option (dict Q);
  pd_bloom_performance : option (dict Q);
  pd_strengths : option (list string);
  pd_weaknesses : option (list string);
  pd_last_session : option string;   (* [None]: absent, or the value [None] *)
  pd_learning_velocity : option Q;
  pd_performance_level : option string
}.

Definition profile_record (profile : LearnerProfile) : ProfileData :=
  mkProfileData
    (Some (user_id profile))
    (Some (total_questions_answered profile))
    (Some (correct_answers profile))
    (Some (inject_Z (correct_answers profile)
           / inject_Z (Z.max 1 (total_questions_answered profile)))%Q)
    (Some (topics_mastery profile))
    (Some (bloom_performance profile))
    (Some (strengths profile))
    (Some (weaknesses profile))
    (match last_session profile with
     | Some t => Some (isoformat t)
     | None => None
     end)
    (Some (learning_velocity profile))
    (Some (level_value (_calculate_performance_level profile))).

Definition export_profile (self : AdaptiveEngine) (uid : string)
    : AdaptiveEngine * ProfileData :=
  let '(self1, profile) := get_or_create_profile self uid in
  (self1, profile_record profile).

(** [import_profile]; a missing [user_id] ([KeyError]) and an unreadable
    timestamp ([ValueError]) are [None]. *)
Definition import_profile (self : AdaptiveEngine) (profile_data : ProfileData)
    : option AdaptiveEngine :=
  uid ← pd_user_id profile_data;
  let profile :=
    mkProfile uid
      (default 0 (pd_total_questions profile_data))
      (default 0 (pd_correct_answers profile_data))
      (default [] (pd_topics_mastery profile_data))
      (default [] (pd_bloom_performance profile_data))
      0 (default 0%Q (pd_learning_velocity profile_data)) None
      (default [] (pd_strengths profile_data))
      (default [] (pd_weaknesses profile_data))
      [] in
  profile' ←
    match pd_last_session profile_data with
    | Some s =>
        if String.eqb s "" then Some profile
        else
          t ← fromisoformat s;
          Some (set_last_session profile t)
    | None => Some profile
    end;
  Some (store_profile self uid profile').

(** *** The question count as the specification words it

    The timing rule and then the velocity rule, each applied to the
    count the previous one left. *)
Definition timing_rule (avg n : Q) : Q :=
  if Py.ltb 120 avg then Py.max 5 (n - 2)
  else if Py.ltb 0 avg && Py.ltb avg 30 then Py.min 20 (n + 2)
  else n.

Definition velocity_rule (velocity n : Q) : Q :=
  if Py.ltb (1 # 10) velocity then Py.min 20 (n + 3)
  else if Py.ltb velocity (- (1 # 10)) then Py.max 5 (n - 3)
  else n.

Definition question_count_in_sequence (avg velocity requested : Q) : Q :=
  velocity_rule velocity (timing_rule avg requested).

End Adaptive.

(** ** Predicates of the specification *)

Module Spec.
Import DateTime.

(** A score within [[0,1]]. *)
Definition in_unit (q : Q) : Prop := (0 <= q <= 1)%Q.

Definition scores_in_unit (d : dict Q) : Prop :=
  Forall (fun kv => in_unit (snd kv)) d.

(** The invariant of a learner profile (section 3 of the specification). *)
Definition profile_ok (p : Adaptive.LearnerProfile) : Prop :=
  Adaptive.correct_answers p <= Adaptive.total_questions_answered p
  /\ scores_in_unit (Adaptive.topics_mastery p)
  /\ scores_in_unit (Adaptive.bloom_performance p).

Definition store_ok (self : Adaptive.AdaptiveEngine) : Prop :=
  forall uid p,
    Adaptive.learner_profiles self !! uid = Some p -> profile_ok p.

(** A session in range: no more correct answers than answers, and
    performances within [[0,1]]. *)
Definition session_ok (s : Adaptive.SessionDict) : Prop :=
  default 0 (Adaptive.s_correct_answers s)
    <= default 0 (Adaptive.s_questions_answered s)
  /\ scores_in_unit (default [] (Adaptive.s_topic_performance s))
  /\ scores_in_unit (default [] (Adaptive.s_bloom_performance s)).

Definition history_ok (h : Adaptive.HistoryDict) : Prop :=
  Forall session_ok (default [] (Adaptive.hd_recent_sessions h)).

Definition report_ok (r : Adaptive.QuizReportDict) : Prop :=
  default 0 (Adaptive.q_correct_answers r)
    <= default 0 (Adaptive.q_total_questions r)
  /\ scores_in_unit (default [] (Adaptive.q_topic_scores r))
  /\ scores_in_unit (default [] (Adaptive.q_bloom_scores r)).

(** The accuracy of a non-empty run of answers. *)
Definition accuracy (xs : list Analytics.AnswerData) : Q :=
  (inject_Z (Py.count Analytics.got_correct xs) / inject_Z (Py.len xs))%Q.

(** Every attempt counter of the question store is non-negative. *)
Definition counters_ok (self : Analytics.AnalyticsEngine) : Prop :=
  forall qid e,
    Analytics.question_analytics self !! qid = Some e ->
    0 <= Analytics.attempts e.

(** No recorded event carries a [time_taken]. *)
Definition untimed (e : Analytics.Event) : Prop :=
  match e with
  | Analytics.answer_submitted _ _ _ data => Analytics.time_taken data = None
  | Analytics.quiz_generated _ _ _ => True
  end.


(** The configuration part of [adjust_config] is a function of the
    learner's profile as it is stored when the call starts. *)
Definition adjusted_for (stored : option Adaptive.LearnerProfile)
    (config : gmap string Adaptive.Value) (h : Adaptive.HistoryDict) (now_update now_select : datetime)
    : option (gmap string Adaptive.Value) :=
  let uid := default "anonymous" (Adaptive.hd_user_id h) in
  let profile :=
    Adaptive._update_profile_from_history (default (Adaptive.new_profile uid) stored) h now_update in
  config1 ← Adaptive._adjust_difficulty_distribution config
              (Adaptive._calculate_performance_level profile) profile;
  config2 ← Adaptive._select_adaptive_topics config1 profile now_select;
  config3 ← Adaptive._adjust_question_count config2 profile;
  Adaptive._select_question_types config3 profile.

(** A tally entry [(correct, total)] counts at least one answer and no
    more correct ones than answers. *)
Definition tally_entry_ok (ct : Z * Z) : Prop :=
  0 <= fst ct <= snd ct /\ 1 <= snd ct.

(** *** Predicates for the rest of the engines *)

(** The engines' states that their own operations build, with clock
    readings that are [datetime] objects. *)
Inductive recorded : Analytics.AnalyticsEngine -> Prop :=
| recorded_init : recorded Analytics.init
| recorded_quiz self now uid metadata :
    recorded self -> valid now = true ->
    recorded (Analytics.track_quiz_generation self now uid metadata)
| recorded_answer self self' now uid qid a :
    recorded self -> valid now = true ->
    Analytics.track_answer self now uid qid a = Some self' ->
    recorded self'
| recorded_report self self' r now quiz_id answers time_taken :
    recorded self ->
    Analytics.generate_report self now quiz_id answers time_taken
      = Some (self', r) ->
    recorded self'.

Inductive reachable : Adaptive.AdaptiveEngine -> Prop :=
| reachable_init : reachable Adaptive.init
| reachable_adjust self self' config config' h n1 n2 :
    reachable self ->
    Adaptive.adjust_config self config h n1 n2 = Some (self', config') ->
    reachable self'
| reachable_update self uid r now :
    reachable self -> reachable (Adaptive.update_user_model self uid r now)
| reachable_export self uid :
    reachable self -> reachable (fst (Adaptive.export_profile self uid))
| reachable_import self self' d :
    reachable self -> Adaptive.import_profile self d = Some self' ->
    reachable self'.

(** The wrong answers counted in [common_mistakes]. *)
Definition mistakes_total (d : dict Z) : Z :=
  fold_right Z.add 0 (Dict.values d).

(** The bookkeeping of one question. *)
Definition question_ok (e : Analytics.QuestionAnalytics) : Prop :=
  1 <= Analytics.attempts e
  /\ 0 <= Analytics.correct e <= Analytics.attempts e
  /\ 0 <= mistakes_total (Analytics.common_mistakes e)
       <= Analytics.attempts e - Analytics.correct e.

(** Every recorded timestamp is one that [fromisoformat] reads. *)
Definition readable (e : Analytics.Event) : Prop :=
  is_Some (fromisoformat (Analytics.timestamp_of e)).

Definition timestamps_ok (self : Analytics.AnalyticsEngine) : Prop :=
  forall uid events,
    Analytics.sessions self !! uid = Some events -> Forall readable events.

(** A session summary within range. *)
Definition summary_ok (s : Analytics.SessionSummary) : Prop :=
  0 <= Analytics.correct_answers s <= Analytics.questions_answered s
  /\ in_unit (Analytics.accuracy s)
  /\ scores_in_unit (Analytics.topic_performance s)
  /\ scores_in_unit (Analytics.bloom_performance s)
  /\ is_Some (fromisoformat (Analytics.start_time s))
  /\ is_Some (fromisoformat (Analytics.end_time s)).

(** The order of the performance levels. *)
Definition level_rank (level : Adaptive.PerformanceLevel) : Z :=
  match level with
  | Adaptive.STRUGGLING => 0
  | Adaptive.DEVELOPING => 1
  | Adaptive.PROFICIENT => 2
  | Adaptive.ADVANCED => 3
  end.

(** [correct / total] of a profile. *)
Definition profile_accuracy (p : Adaptive.LearnerProfile) : Q :=
  (inject_Z (Adaptive.correct_answers p)
   / inject_Z (Adaptive.total_questions_answered p))%Q.

(** All answers have the same correctness [b]. *)
Definition uniform (b : bool) (answers : list Analytics.AnswerData) : Prop :=
  Forall (fun a => Analytics.got_correct a = b) answers.


End Spec.

(** ** Sample inputs *)

Module Samples.
Import DateTime.

Definition noon : datetime := mkDateTime 2024 3 1 12 0 0 0.

Definition sample_profile : Adaptive.LearnerProfile :=
  Adaptive.mkProfile "ann" 12 9 [("algebra", 3 # 4); ("sets", 1 # 2)]
    [("apply", 2 # 5)] 40 0 (Some (mkDateTime 2024 2 29 8 30 15 250000))
    ["algebra"] ["sets"] [].

Definition sample_store : Adaptive.AdaptiveEngine :=
  Adaptive.store_profile Adaptive.init "ann" sample_profile.

Definition sample_session : Adaptive.SessionDict :=
  Adaptive.mkSessionDict (Some 4) (Some 3) (Some [("algebra", 1 # 1); ("logic", 1 # 2)])
    (Some [("apply", 3 # 4)]) (Some (3 # 4)).

Definition sample_history : Adaptive.HistoryDict :=
  Adaptive.mkHistoryDict (Some "ann") (Some [sample_session; sample_session]).

Definition sample_report : Adaptive.QuizReportDict :=
  Adaptive.mkQuizReportDict (Some 5) (Some 2) (Some [("sets", 2 # 5)])
    (Some [("apply", 0 # 1); ("create", 1 # 1)]) (Some (30 # 1)).

Definition weak_at_remember : Adaptive.LearnerProfile :=
  Adaptive.mkProfile "bob" 10 3 [] [("remember", 3 # 10)] 0 0 None [] [] [].

Definition answer (ok : bool) : Analytics.AnswerData :=
  Analytics.mkAnswer (Some ok) None None None None None.

(** An answer with no [time_taken], and one that took [t] seconds. *)
Definition untimed_answer : Analytics.AnswerData :=
  Analytics.mkAnswer (Some true) None None None None None.

Definition timed_answer (t : Q) : Analytics.AnswerData :=
  Analytics.mkAnswer (Some true) None (Some t) None None None.

(** A learner who is slow (150 s per question) and improving fast. *)
Definition slow_and_improving : Adaptive.LearnerProfile :=
  Adaptive.mkProfile "ann" 20 15 [] [] 150 (2 # 10) None [] [] [].

Definition ten_questions : gmap string Adaptive.Value :=
  {[ "num_questions" := Adaptive.VNum 10 ]}.

(** The configuration that [app.py] builds by default. *)
Definition default_config : gmap string Adaptive.Value :=
  <["num_questions" := Adaptive.VNum 10]>
  (<["question_types" :=
       Adaptive.VList ["multiple_choice"; "true_false"; "short_answer"]]>
  (<["difficulty_distribution" :=
       Adaptive.VDict [("remember", 2 # 10); ("understand", 3 # 10);
                       ("apply", 3 # 10); ("analyze", 2 # 10)]]>
  (<["learning_mode" := Adaptive.VStr "adaptive"]>
  (<["include_hints" := Adaptive.VBool true]>
  (<["include_explanations" := Adaptive.VBool true]> ∅))))).

(** Two sessions of one learner: all right, then all wrong. *)
Definition up_session : Adaptive.SessionDict :=
  Adaptive.mkSessionDict (Some 2) (Some 2) (Some [("algebra", 1%Q)])
    (Some [("understand", 1%Q)]) (Some 1%Q).

Definition down_session : Adaptive.SessionDict :=
  Adaptive.mkSessionDict (Some 2) (Some 0) (Some [("algebra", 0%Q)])
    (Some [("understand", 0%Q)]) (Some 0%Q).

Definition up_down_history : Adaptive.HistoryDict :=
  Adaptive.mkHistoryDict (Some "ann") (Some [up_session; down_session]).


(** Two answers of one learner, exactly one day apart. *)
Definition day_one : datetime := mkDateTime 2024 3 1 10 0 0 0.
Definition day_two : datetime := mkDateTime 2024 3 2 10 0 0 0.

(** An analytics engine after three recorded answers of one learner. *)
Definition three_answers : option Analytics.AnalyticsEngine :=
  s1 ← Analytics.track_answer Analytics.init day_one "ann" "q1" (timed_answer 12);
  s2 ← Analytics.track_answer s1 day_one "ann" "q2"
         (Analytics.mkAnswer (Some false) (Some "42") None (Some "algebra") None None);
  Analytics.track_answer s2 day_two "ann" "q1" untimed_answer.

End Samples.

(** * Properties *)

(** ** Timestamps survive their ISO string *)

Section IsoRoundTrip.
Import DateTime.

Lemma digit_val_digit_char (d : Z) :
  0 <= d <= 9 -> digit_val (digit_char d) = Some d.
Proof.
  intros H.
  assert (d = 0 \/ d = 1 \/ d = 2 \/ d = 3 \/ d = 4 \/ d = 5 \/ d = 6
          \/ d = 7 \/ d = 8 \/ d = 9) as Hd by lia.
  repeat (destruct Hd as [-> | Hd]; [reflexivity |]).
  subst d. reflexivity.
Qed.

Lemma append_cons (c : ascii) (s r : string) :
  String c s +:+ r = String c (s +:+ r).
Proof. reflexivity. Qed.

Lemma parse_digits_zpad (w : nat) :
  forall (acc v : Z) (rest : string),
    0 <= v < 10 ^ Z.of_nat w ->
    parse_digits w acc (zpad w v +:+ rest)
    = Some (acc * 10 ^ Z.of_nat w + v, rest).
Proof.
  induction w as [| w IH]; intros acc v rest Hv.
  - cbn [zpad parse_digits]. change ("" +:+ rest) with rest. f_equal. f_equal.
    change (10 ^ Z.of_nat 0) with 1 in *. lia.
  - cbn [zpad]. rewrite append_cons. cbn [parse_digits].
    assert (Hp : 0 < 10 ^ Z.of_nat w) by (apply Z.pow_pos_nonneg; lia).
    assert (HS : 10 ^ Z.of_nat (S w) = 10 * 10 ^ Z.of_nat w).
    { rewrite Nat2Z.inj_succ, Z.pow_succ_r by lia. reflexivity. }
    rewrite HS in Hv.
    assert (Hq : 0 <= v / 10 ^ Z.of_nat w <= 9).
    { split.
      - apply Z.div_pos; lia.
      - assert (v / 10 ^ Z.of_nat w < 10); [| lia].
        apply Z.div_lt_upper_bound; lia. }
    rewrite (digit_val_digit_char _ Hq).
    rewrite IH by (apply Z.mod_pos_bound; lia).
    f_equal. f_equal. rewrite HS.
    pose proof (Z.div_mod v (10 ^ Z.of_nat w)) as Hdm.
    nia.
Qed.

Lemma parse_digits_zpad0 (w : nat) (v : Z) (rest : string) :
  0 <= v < 10 ^ Z.of_nat w ->
  parse_digits w 0 (zpad w v +:+ rest) = Some (v, rest).
Proof. intros H. rewrite parse_digits_zpad by exact H. reflexivity. Qed.

Lemma expect_cons (c : ascii) (rest : string) :
  expect c (String c rest) = Some rest.
Proof. unfold expect. rewrite Ascii.eqb_refl. reflexivity. Qed.

Lemma append_one (c : ascii) (rest : string) :
  String c "" +:+ rest = String c rest.
Proof. reflexivity. Qed.

Lemma append_empty_r (s : string) : s +:+ "" = s.
Proof. induction s as [| c s IH]; [reflexivity |]. rewrite append_cons, IH. reflexivity. Qed.

Lemma zpad_app_nonempty (w : nat) (v : Z) (rest : string) :
  zpad (S w) v +:+ rest <> "".
Proof. cbn [zpad]. rewrite append_cons. discriminate. Qed.

Lemma fromisoformat_with_time (s t : string) (sep : ascii) (y m d : Z) :
  t <> "" ->
  parse_date s = Some (y, m, d, String sep t) ->
  fromisoformat s =
    match parse_time t with
    | Some (hh, mm, ss, us) => checked (mkDateTime y m d hh mm ss us)
    | None => None
    end.
Proof.
  intros Ht Hd. unfold fromisoformat. rewrite Hd.
  destruct t; [congruence | reflexivity].
Qed.

Lemma valid_bounds (d : datetime) :
  valid d = true ->
  (1 <= year d <= 9999) /\ (1 <= month d <= 12) /\ (1 <= day d <= 31) /\
  (0 <= hour d < 24) /\ (0 <= minute d < 60) /\ (0 <= second d < 60) /\
  (0 <= microsecond d < 1000000).
Proof.
  unfold valid. intros H.
  repeat (apply andb_prop in H; destruct H as [H ?]).
  assert (days_in_month (year d) (month d) <= 31).
  { unfold days_in_month.
    repeat match goal with |- context [if ?b then _ else _] => destruct b end; lia. }
  lia.
Qed.

Ltac read_field :=
  rewrite parse_digits_zpad0
    by (first [ change (10 ^ Z.of_nat 4) with 10000
              | change (10 ^ Z.of_nat 2) with 100
              | change (10 ^ Z.of_nat 6) with 1000000 ]; lia).
Ltac read_sep :=
  rewrite append_one; cbv beta iota; rewrite expect_cons.

Lemma parse_date_isoformat (d : datetime) (rest : string) :
  valid d = true ->
  parse_date (zpad 4 (year d) +:+ "-" +:+ zpad 2 (month d) +:+ "-"
              +:+ zpad 2 (day d) +:+ rest)
  = Some (year d, month d, day d, rest).
Proof.
  intros Hv. apply valid_bounds in Hv.
  unfold parse_date.
  read_field. read_sep. read_field. read_sep. read_field.
  reflexivity.
Qed.

Lemma parse_time_isoformat (d : datetime) :
  valid d = true ->
  parse_time (zpad 2 (hour d) +:+ ":" +:+ zpad 2 (minute d) +:+ ":"
              +:+ zpad 2 (second d)
              +:+ (if microsecond d =? 0 then ""
                   else "." +:+ zpad 6 (microsecond d)))
  = Some (hour d, minute d, second d, microsecond d).
Proof.
  intros Hv. apply valid_bounds in Hv.
  unfold parse_time.
  read_field. read_sep. read_field. read_sep. read_field.
  destruct (microsecond d =? 0) eqn:Hus.
  - apply Z.eqb_eq in Hus. rewrite Hus. reflexivity.
  - read_sep. unfold parse_fraction.
    rewrite <- (append_empty_r (zpad 6 (microsecond d))).
    read_field. reflexivity.
Qed.

(** [datetime.fromisoformat(t.isoformat())] is [t], microsecond included. *)
Lemma fromisoformat_isoformat (d : datetime) :
  valid d = true -> fromisoformat (isoformat d) = Some d.
Proof.
  intros Hv. unfold isoformat.
  rewrite (fromisoformat_with_time _
             (zpad 2 (hour d) +:+ ":" +:+ zpad 2 (minute d) +:+ ":"
              +:+ zpad 2 (second d)
              +:+ (if microsecond d =? 0 then ""
                   else "." +:+ zpad 6 (microsecond d)))
             "T" (year d) (month d) (day d)).
  - rewrite (parse_time_isoformat d Hv). unfold checked.
    destruct d; cbn in *. rewrite Hv. reflexivity.
  - apply zpad_app_nonempty.
  - apply (parse_date_isoformat d _ Hv).
Qed.

End IsoRoundTrip.

(** ** Export and import of a learner profile *)

Section ProfileRoundTrip.
Import DateTime Adaptive Samples.

Lemma isoformat_nonempty (t : datetime) : String.eqb (isoformat t) "" = false.
Proof.
  apply String.eqb_neq. unfold isoformat. apply zpad_app_nonempty.
Qed.

(** What [import_profile] rebuilds from the exported record of [p]. *)
Lemma import_profile_record (self : AdaptiveEngine) (p : LearnerProfile) :
  (forall t, last_session p = Some t -> valid t = true) ->
  import_profile self (profile_record p)
  = Some (store_profile self (user_id p)
            (mkProfile (user_id p) (total_questions_answered p)
               (correct_answers p) (topics_mastery p) (bloom_performance p)
               0 (learning_velocity p) (last_session p)
               (strengths p) (weaknesses p) [])).
Proof.
  intros Hv. unfold import_profile, profile_record. cbn.
  destruct (last_session p) as [t |] eqn:Hls; [| reflexivity].
  rewrite isoformat_nonempty.
  rewrite (fromisoformat_isoformat t (Hv t eq_refl)).
  reflexivity.
Qed.

(** C7. Importing the record that [export_profile] produces for a
    learner stores a profile with the same [topics_mastery] and
    [bloom_performance] maps, the same [total_questions_answered] and
    [correct_answers] counters and the same [last_session] timestamp
    (microsecond included) as the exported profile [p]. The timestamp is
    a [datetime] object, so its fields are in range. *)
Theorem import_export_roundtrip (self : AdaptiveEngine) (uid : string)
    (p : LearnerProfile) :
  snd (get_or_create_profile self uid) = p ->
  (forall t, last_session p = Some t -> valid t = true) ->
  exists self' p',
    import_profile (fst (export_profile self uid)) (snd (export_profile self uid))
      = Some self'
    /\ learner_profiles self' !! user_id p = Some p'
    /\ topics_mastery p' = topics_mastery p
    /\ bloom_performance p' = bloom_performance p
    /\ total_questions_answered p' = total_questions_answered p
    /\ correct_answers p' = correct_answers p
    /\ last_session p' = last_session p.
Proof.
  intros Hp Hv. unfold export_profile.
  destruct (get_or_create_profile self uid) as [self1 q] eqn:Hg.
  cbn in Hp. subst q. cbn [fst snd].
  rewrite (import_profile_record self1 p Hv).
  eexists _, _. split; [reflexivity |].
  split; [apply lookup_insert_eq |].
  repeat split.
Qed.

Lemma import_export_roundtrip_witness :
  exists self' p',
    import_profile
      (fst (export_profile sample_store "ann"))
      (snd (export_profile sample_store "ann"))
      = Some self'
    /\ learner_profiles self' !! user_id sample_profile = Some p'
    /\ topics_mastery p' = topics_mastery sample_profile
    /\ bloom_performance p' = bloom_performance sample_profile
    /\ total_questions_answered p' = total_questions_answered sample_profile
    /\ correct_answers p' = correct_answers sample_profile
    /\ last_session p' = last_session sample_profile.
Proof.
  apply (import_export_roundtrip sample_store "ann").
  - vm_compute. reflexivity.
  - intros t H. vm_compute in H. injection H as <-. vm_compute. reflexivity.
Defined.

End ProfileRoundTrip.

(** ** Dictionary lemmas *)

Section DictFacts.
Context {V : Type}.
Implicit Types (d : dict V) (k : string) (v : V).





Lemma get_Forall (P : V -> Prop) k v d :
  Forall (fun kv => P (snd kv)) d -> Dict.get k d = Some v -> P v.
Proof.
  induction 1 as [| [k' v'] d Hx _ IH]; cbn; [discriminate |].
  destruct (String.eqb k k'); [| exact IH].
  intros [= <-]. exact Hx.
Qed.

Lemma set_Forall (P : V -> Prop) k v d :
  Forall (fun kv => P (snd kv)) d -> P v ->
  Forall (fun kv => P (snd kv)) (Dict.set k v d).
Proof.
  intros Hd Hv. induction Hd as [| [k' v'] d Hx Hd IH]; cbn.
  - constructor; [exact Hv | constructor].
  - destruct (String.eqb k k'); constructor; assumption.
Qed.

End DictFacts.

(** ** The profile invariant *)

Section ProfileInvariant.
Import DateTime Adaptive Spec Samples.

(** A weighted average with weights summing to one stays in [[0,1]]. *)
Lemma blend_in_unit (w_old w_new : Q) (scores : dict Q) (obs : string * Q) :
  (0 <= w_old)%Q -> (0 <= w_new)%Q -> (w_old + w_new == 1)%Q ->
  scores_in_unit scores -> in_unit (snd obs) ->
  scores_in_unit (blend w_old w_new scores obs).
Proof.
  intros Ho Hn Hsum Hs Hobs. unfold blend.
  destruct (Dict.get (fst obs) scores) as [old |] eqn:Hg.
  - apply (set_Forall in_unit); [exact Hs |].
    pose proof (get_Forall in_unit _ _ _ Hs Hg) as Hold.
    unfold in_unit in *. split; [nra |].
    assert (w_old * old + w_new * snd obs <= w_old * 1 + w_new * 1)%Q by nra.
    lra.
  - apply (set_Forall in_unit); assumption.
Qed.

Lemma blend_all_in_unit (w_old w_new : Q) (observed : dict Q) :
  (0 <= w_old)%Q -> (0 <= w_new)%Q -> (w_old + w_new == 1)%Q ->
  scores_in_unit observed ->
  forall scores, scores_in_unit scores ->
                 scores_in_unit (blend_all w_old w_new scores observed).
Proof.
  intros Ho Hn Hsum Hobs. unfold blend_all.
  induction Hobs as [| obs observed Hx _ IH]; intros scores Hs; cbn.
  - exact Hs.
  - apply IH. apply blend_in_unit; assumption.
Qed.

Lemma identify_keeps_scores (p : LearnerProfile) :
  correct_answers (_identify_strengths_weaknesses p) = correct_answers p
  /\ total_questions_answered (_identify_strengths_weaknesses p)
     = total_questions_answered p
  /\ topics_mastery (_identify_strengths_weaknesses p) = topics_mastery p
  /\ bloom_performance (_identify_strengths_weaknesses p) = bloom_performance p.
Proof.
  unfold _identify_strengths_weaknesses.
  destruct (topics_mastery p) eqn:E; cbn; rewrite ?E; repeat split.
Qed.

Lemma identify_ok (p : LearnerProfile) :
  profile_ok p -> profile_ok (_identify_strengths_weaknesses p).
Proof.
  unfold profile_ok.
  destruct (identify_keeps_scores p) as (-> & -> & -> & ->). tauto.
Qed.

Lemma apply_session_ok (p : LearnerProfile) (s : SessionDict) :
  profile_ok p -> session_ok s -> profile_ok (apply_session p s).
Proof.
  intros (Hc & Ht & Hb) (Hsc & Hst & Hsb). unfold profile_ok, apply_session. cbn.
  split; [lia |].
  split; apply blend_all_in_unit; try assumption; try lra; reflexivity.
Qed.

Lemma fold_sessions_ok (sessions : list SessionDict) :
  Forall session_ok sessions ->
  forall p, profile_ok p -> profile_ok (fold_left apply_session sessions p).
Proof.
  induction 1 as [| s sessions Hs _ IH]; intros p Hp; cbn.
  - exact Hp.
  - apply IH. apply apply_session_ok; assumption.
Qed.

Lemma update_from_history_ok (p : LearnerProfile) (h : HistoryDict)
    (now : datetime) :
  profile_ok p -> history_ok h ->
  profile_ok (_update_profile_from_history p h now).
Proof.
  intros Hp Hh. unfold _update_profile_from_history.
  set (p1 := match hd_recent_sessions h with
             | Some sessions => fold_left apply_session sessions p
             | None => p
             end).
  assert (H1 : profile_ok p1).
  { subst p1. unfold history_ok in Hh.
    destruct (hd_recent_sessions h) as [sessions |]; cbn in Hh.
    - apply fold_sessions_ok; assumption.
    - exact Hp. }
  assert (H2 : profile_ok (if 0 <? total_questions_answered p1
                           then set_velocity p1 (_calculate_learning_velocity h)
                           else p1)).
  { destruct (0 <? total_questions_answered p1); exact H1. }
  apply identify_ok in H2. exact H2.
Qed.

Lemma apply_report_ok (p : LearnerProfile) (r : QuizReportDict) (now : datetime) :
  profile_ok p -> report_ok r -> profile_ok (apply_report p r now).
Proof.
  intros (Hc & Ht & Hb) (Hrc & Hrt & Hrb). unfold apply_report.
  apply identify_ok. unfold profile_ok. cbn.
  split; [lia |].
  split; apply blend_all_in_unit; try assumption; try lra; reflexivity.
Qed.

Lemma new_profile_ok (uid : string) : profile_ok (new_profile uid).
Proof. unfold profile_ok, new_profile; cbn. repeat split; try lia; constructor. Qed.

(** C5. A profile with [correct_answers <= total_questions_answered] and
    all mastery and bloom-performance values in [[0,1]] keeps both
    properties through [_update_profile_from_history], for a history
    whose sessions have no more correct answers than answers and
    performances in [[0,1]], and through [update_user_model], for a
    report within the same bounds: every stored profile satisfies them
    afterwards. *)
Theorem profile_invariant_preserved (self : AdaptiveEngine) (uid : string)
    (p : LearnerProfile) (h : HistoryDict) (r : QuizReportDict)
    (now : datetime) :
  store_ok self -> profile_ok p -> history_ok h -> report_ok r ->
  profile_ok (_update_profile_from_history p h now)
  /\ store_ok (update_user_model self uid r now).
Proof.
  intros Hs Hp Hh Hr. split.
  - apply update_from_history_ok; assumption.
  - intros uid' p'. unfold update_user_model.
    destruct (get_or_create_profile self uid) as [self1 q] eqn:Hg.
    assert (Hq : profile_ok q /\ store_ok self1).
    { unfold get_or_create_profile in Hg.
      destruct (learner_profiles self !! uid) as [q0 |] eqn:Hl;
        injection Hg as <- <-.
      - split; [exact (Hs uid q0 Hl) | exact Hs].
      - split; [apply new_profile_ok |].
        intros u q0. cbn. rewrite lookup_insert. case_decide.
        + intros [= <-]. apply new_profile_ok.
        + apply Hs. }
    destruct Hq as [Hq Hs1]. cbn. rewrite lookup_insert. case_decide.
    + intros [= <-]. apply apply_report_ok; assumption.
    + apply Hs1.
Qed.

Lemma sample_profile_ok : profile_ok sample_profile.
Proof.
  unfold profile_ok, scores_in_unit, in_unit. cbn.
  split; [lia |]. split; repeat constructor; cbn; lra.
Qed.

Lemma profile_invariant_preserved_witness :
  profile_ok (_update_profile_from_history sample_profile sample_history noon)
  /\ store_ok (update_user_model sample_store "ann" sample_report noon).
Proof.
  apply (profile_invariant_preserved sample_store "ann" sample_profile
           sample_history sample_report noon).
  - intros uid p. unfold sample_store, store_profile. cbn.
    rewrite lookup_insert. case_decide.
    + intros [= <-]. exact sample_profile_ok.
    + rewrite lookup_empty. discriminate.
  - exact sample_profile_ok.
  - unfold history_ok, session_ok, scores_in_unit, in_unit. cbn.
    repeat constructor; cbn; try lia; lra.
  - unfold report_ok, scores_in_unit, in_unit. cbn.
    split; [lia |]. split; repeat constructor; cbn; lra.
Defined.

End ProfileInvariant.

(** ** Sums and quotients of rationals *)

Section Sums.

Lemma fold_plus_acc (xs : list Q) :
  forall a, (fold_left Qplus xs a == a + fold_left Qplus xs 0)%Q.
Proof.
  induction xs as [| x xs IH]; intros a; cbn.
  - ring.
  - rewrite (IH (a + x)%Q), (IH (0 + x)%Q). ring.
Qed.

Lemma sum_cons (x : Q) (xs : list Q) :
  (Py.sum (x :: xs) == x + Py.sum xs)%Q.
Proof.
  unfold Py.sum. cbn. rewrite fold_plus_acc. ring.
Qed.

Lemma sum_nil : Py.sum [] = 0%Q.
Proof. reflexivity. Qed.



Lemma div_defined (a b : Q) : ~ (b == 0)%Q -> Py.div a b = Some (a / b)%Q.
Proof.
  intros Hb. unfold Py.div.
  destruct (Qeq_bool b 0) eqn:E; [| reflexivity].
  apply Qeq_bool_iff in E. contradiction.
Qed.

Lemma ltb_lt (a b : Q) : Py.ltb a b = true <-> (a < b)%Q.
Proof.
  unfold Py.ltb. rewrite negb_true_iff.
  split.
  - intros H. apply Qnot_le_lt. intros Hle.
    apply Qle_bool_iff in Hle. congruence.
  - intros H. destruct (Qle_bool b a) eqn:E; [| reflexivity].
    apply Qle_bool_iff in E. lra.
Qed.

End Sums.

(** ** The difficulty distribution *)

Section Difficulty.
Import Adaptive Spec Samples.













End Difficulty.

(** ** Behavioural patterns *)

Section PatternFacts.
Import Analytics Spec Samples.

Lemma len_nonzero {A} (xs : list A) :
  xs <> [] -> ~ (inject_Z (Py.len xs) == 0)%Q.
Proof.
  intros Hne H. unfold Py.len in H.
  destruct xs as [| x xs]; [congruence |].
  unfold Qeq in H. cbn [Qnum Qden inject_Z length] in H. lia.
Qed.

Lemma accuracy_of_defined (xs : list AnswerData) :
  xs <> [] -> accuracy_of xs = Some (accuracy xs).
Proof.
  intros Hne. unfold accuracy_of, accuracy.
  apply div_defined, len_nonzero, Hne.
Qed.

Lemma rushing_check_defined (answers : list AnswerData) :
  exists b, rushing_check answers = Some b.
Proof.
  unfold rushing_check.
  destruct (omap time_taken answers) as [| t ts] eqn:E.
  - exists false. reflexivity.
  - rewrite div_defined by (apply len_nonzero; discriminate).
    eexists. reflexivity.
Qed.

Lemma guessing_check_defined (answers : list AnswerData) :
  exists b, guessing_check answers = Some b.
Proof.
  unfold guessing_check.
  destruct (List.filter _ answers) as [| a mc] eqn:E.
  - exists false. reflexivity.
  - rewrite accuracy_of_defined by discriminate.
    eexists. reflexivity.
Qed.

Lemma halves_nonempty {A} (xs : list A) :
  5 <= Py.len xs ->
  Py.take (length xs / 2) xs <> [] /\ Py.drop (length xs / 2) xs <> [].
Proof.
  unfold Py.len, Py.take, Py.drop. intros H.
  assert (Hn : (5 <= length xs)%nat) by lia.
  assert (Hh : (0 < length xs / 2 < length xs)%nat).
  { split.
    - apply Nat.div_str_pos. lia.
    - apply Nat.div_lt; lia. }
  split; intros E; apply (f_equal (@length A)) in E;
    [rewrite length_firstn in E | rewrite length_skipn in E];
    cbn [length] in E; lia.
Qed.

(** With five answers or more, the three flags are decided by the
    accuracies of the two halves. *)
Lemma halves_check_enough (answers : list AnswerData) :
  5 <= Py.len answers ->
  halves_check answers
  = Some (let first := accuracy (Py.take (length answers / 2) answers) in
          let second := accuracy (Py.drop (length answers / 2) answers) in
          if Py.ltb second (first - (2 # 10))%Q then (true, true, false)
          else if Py.ltb (first + (2 # 10))%Q second then (false, false, true)
          else (false, false, false)).
Proof.
  intros H. unfold halves_check.
  destruct (halves_nonempty answers H) as [H1 H2].
  apply Z.leb_le in H. rewrite H.
  cbv zeta.
  rewrite (accuracy_of_defined _ H1), (accuracy_of_defined _ H2).
  cbn.
  repeat match goal with |- context [if ?b then _ else _] => destruct b end;
    reflexivity.
Qed.

Lemma halves_check_few (answers : list AnswerData) :
  Py.len answers < 5 -> halves_check answers = Some (false, false, false).
Proof.
  intros H. unfold halves_check.
  apply Z.leb_gt in H. rewrite H. reflexivity.
Qed.

Lemma identify_patterns_flags (answers : list AnswerData) :
  exists p flags,
    _identify_patterns answers = Some p
    /\ halves_check answers = Some flags
    /\ flags = (fatigue p, declining p, improving p).
Proof.
  unfold _identify_patterns.
  destruct answers as [| a answers].
  - exists no_patterns, (false, false, false). repeat split.
  - destruct (rushing_check_defined (a :: answers)) as [r ->].
    destruct (guessing_check_defined (a :: answers)) as [g ->].
    assert (Hf : exists flags, halves_check (a :: answers) = Some flags).
    { destruct (Z_le_gt_dec 5 (Py.len (a :: answers))) as [H | H].
      - rewrite (halves_check_enough _ H). eexists. reflexivity.
      - rewrite halves_check_few by lia. eexists. reflexivity. }
    destruct Hf as [[[x y] z] ->]. cbn.
    eexists _, _. repeat split.
Qed.


End PatternFacts.

(** ** Reports and per-question statistics *)

Section LedgerFacts.
Import DateTime Analytics Spec Samples.

(** C10. On the empty answer list [generate_report] returns, whatever
    the quiz identifier and [time_taken]: the report has
    [total_questions = 0], [correct_answers = 0], [overall_score = 0],
    both longest streaks 0, the trend [insufficient_data], every pattern
    flag false, and neither [average_time] nor [time_per_correct]; it
    is stored under the quiz identifier. *)
Theorem generate_report_empty (self : AnalyticsEngine) (now : datetime)
    (quiz_id : string) (time_taken : option Z) :
  exists self' r,
    generate_report self now quiz_id [] time_taken = Some (self', r)
    /\ r_total_questions r = 0
    /\ r_correct_answers r = 0
    /\ r_overall_score r = 0%Q
    /\ r_longest_correct_streak r = 0
    /\ r_longest_incorrect_streak r = 0
    /\ r_performance_trend r = "insufficient_data"
    /\ r_patterns r = mkPatterns false false false false false false
    /\ r_average_time r = None
    /\ r_time_per_correct r = None
    /\ quiz_results self' !! quiz_id = Some r.
Proof.
  unfold generate_report.
  destruct time_taken as [t |]; [destruct (t =? 0) |]; cbn;
    eexists _, _; (split; [reflexivity |]); cbn;
    repeat (split; [reflexivity |]); apply lookup_insert_eq.
Qed.

Lemma attempts_nonzero (n : Z) : 0 <= n -> ~ (inject_Z (n + 1) == 0)%Q.
Proof.
  intros Hn H. unfold Qeq in H. cbn [Qnum Qden inject_Z] in H. lia.
Qed.

Lemma fresh_or_counted (self : AnalyticsEngine) (qid : string) :
  counters_ok self ->
  0 <= attempts (default fresh_question (question_analytics self !! qid)).
Proof.
  intros Hok. destruct (question_analytics self !! qid) as [e |] eqn:E; cbn.
  - exact (Hok qid e E).
  - lia.
Qed.

(** The counters stay non-negative: they start at 0 and only grow. *)
Lemma init_counters_ok : counters_ok init.
Proof. intros qid e H. cbn in H. rewrite lookup_empty in H. discriminate H. Qed.

Lemma track_quiz_generation_counters (self : AnalyticsEngine) (now : datetime)
    (uid metadata : string) :
  counters_ok self -> counters_ok (track_quiz_generation self now uid metadata).
Proof. intros Hok qid e H. exact (Hok qid e H). Qed.

Lemma track_answer_counters (self self' : AnalyticsEngine) (now : datetime)
    (uid qid : string) (a : AnswerData) :
  counters_ok self -> track_answer self now uid qid a = Some self' ->
  counters_ok self'.
Proof.
  intros Hok H. pose proof (fresh_or_counted self qid Hok) as Hn.
  unfold track_answer in H.
  destruct (update_question _ a) as [e' |] eqn:Hu; cbn in H; [| discriminate].
  injection H as <-. intros q e. cbn. rewrite lookup_insert. case_decide.
  - intros [= <-]. unfold update_question in Hu.
    destruct (Analytics.time_taken a).
    + destruct (Py.div _ _); cbn in Hu; [| discriminate].
      injection Hu as <-. cbn. lia.
    + injection Hu as <-. cbn. lia.
  - apply Hok.
Qed.




End LedgerFacts.

(** ** The adjusted configuration *)

Section Configurator.
Import DateTime Adaptive Spec Samples.

(* stdpp's [set_solver] clears hypotheses it has already consumed. *)
#[local] Set Warnings "-clear-no-such-hyp".

(** C2. [_adjust_question_count] does not apply the two adjustments
    cumulatively. For a requested count of 10, an average of 150 s per
    question and a learning velocity of 0.2, the timing rule gives 8 and
    the velocity rule, applied to that, 11; the code computes the
    velocity rule from the requested count again and returns 13. *)
Theorem velocity_overwrites_timing :
  (exists config,
      _adjust_question_count ten_questions slow_and_improving = Some config
      /\ config !! "num_questions" = Some (VNum 13))
  /\ timing_rule 150 10 = 8%Q
  /\ question_count_in_sequence 150 (2 # 10) 10 = 11%Q.
Proof.
  split; [eexists; split; vm_compute; reflexivity |].
  split; vm_compute; reflexivity.
Qed.





Ltac step_bind :=
  match goal with
  | |- context [mbind _ ?x] =>
      lazymatch x with
      | mbind _ _ => fail
      | _ => destruct x; cbn [mbind option_bind]; try reflexivity
      end
  end.

Lemma adjust_config_unfold (self : AdaptiveEngine) (config : gmap string Value)
    (h : HistoryDict) (n1 n2 : datetime) :
  adjust_config self config h n1 n2
  = (config' ← adjusted_for (learner_profiles self !! default "anonymous" (hd_user_id h))
                 config h n1 n2;
     Some (store_profile self (default "anonymous" (hd_user_id h))
             (_update_profile_from_history
                (default (new_profile (default "anonymous" (hd_user_id h)))
                   (learner_profiles self !! default "anonymous" (hd_user_id h)))
                h n1),
           config')).
Proof.
  unfold adjust_config, adjusted_for, get_or_create_profile.
  set (uid := default "anonymous" (hd_user_id h)).
  destruct (learner_profiles self !! uid) as [p |];
    cbn [default from_option id].
  - repeat step_bind.
  - unfold store_profile. cbn [learner_profiles]. rewrite insert_insert_eq.
    repeat step_bind.
Qed.





(** *** [adjust_config] returns

    For a stored profile and a history within the bounds of the profile
    invariant, a [num_questions] entry that is absent or a number and a
    [question_types] entry that is absent or iterable, no step raises. *)












End Configurator.

(** ** Sessions of a learner *)

Section Sessions.
Import DateTime Analytics Samples.

(** The cap: [sessions[-10:]] keeps at most ten summaries, the last ones. *)
Lemma last_n_length {A} (n : nat) (xs : list A) :
  (length (Py.last_n n xs) <= n)%nat.
Proof. unfold Py.last_n. rewrite length_skipn. lia. Qed.

Lemma last_n_suffix {A} (n : nat) (xs : list A) :
  exists front, xs = front ++ Py.last_n n xs.
Proof.
  exists (firstn (length xs - n) xs). unfold Py.last_n.
  symmetry. apply firstn_skipn.
Qed.

Lemma recent_sessions_capped (self : AnalyticsEngine) (uid : string) (h : History) :
  get_user_history self uid = Some h -> (length (recent_sessions h) <= 10)%nat.
Proof.
  unfold get_user_history.
  destruct (sessions self !! uid) as [events |].
  - destruct (group_sessions events) as [ss |]; cbn; [| discriminate].
    intros [= <-]. cbn. apply last_n_length.
  - intros [= <-]. cbn. lia.
Qed.

(** The boundary test reads the [seconds] field of the difference, which
    is the gap modulo one day. *)
Lemma seconds_is_gap_modulo_day (a b : datetime) :
  seconds (sub a b)
  = ((toordinal a - toordinal b) * 86400
     + ((second a + minute a * 60 + hour a * 3600)
        - (second b + minute b * 60 + hour b * 3600))
     + (microsecond a - microsecond b) / 1000000) mod 86400.
Proof. reflexivity. Qed.

(** C1. [get_user_history] does not start a new session at every gap
    above 3600 seconds. Two answers of one learner recorded exactly one
    day apart, a gap of 86400 seconds, are summarised as one session:
    the test reads the [seconds] field of the difference, which is 0
    here. *)
Theorem day_gap_is_one_session :
  exists s1 s2,
    track_answer init day_one "ann" "q1" (answer true) = Some s1
    /\ track_answer s1 day_two "ann" "q2" (answer false) = Some s2
    /\ (total_seconds (sub day_two day_one) == 86400)%Q
    /\ seconds (sub day_two day_one) = 0
    /\ get_user_history s2 "ann"
       = Some (mkHistory "ann"
                 [mkSession "2024-03-01T10:00:00" "2024-03-02T10:00:00" 2 1
                    [("General", 1 # 2)] [("understand", 1 # 2)] (1 # 2)]).
Proof.
  eexists _, _.
  split; [vm_compute; reflexivity |].
  split; [vm_compute; reflexivity |].
  split; [reflexivity |].
  split; vm_compute; reflexivity.
Qed.

End Sessions.

(** ** What the analytics engine hands to the adaptive engine

    Reports and session summaries are within the bounds that the profile
    invariant asks of its inputs, and [generate_report] returns for
    every answer list. *)

Section Pipeline.
Import DateTime Analytics Spec.

Lemma inject_Z_nonzero (z : Z) : z <> 0 -> ~ (inject_Z z == 0)%Q.
Proof.
  intros Hz H. unfold Qeq in H. cbn [Qnum Qden inject_Z] in H. lia.
Qed.

Lemma tally_step_ok (key : AnswerData -> string) (acc : dict (Z * Z))
    (a : AnswerData) :
  Forall (fun kv => tally_entry_ok (snd kv)) acc ->
  Forall (fun kv => tally_entry_ok (snd kv)) (tally_step key acc a).
Proof.
  intros Hacc. unfold tally_step.
  destruct (Dict.get (key a) acc) as [[c t] |] eqn:Hg; cbn [default from_option id].
  - pose proof (get_Forall tally_entry_ok _ _ _ Hacc Hg) as [Hc Ht].
    cbn in Hc, Ht.
    apply (set_Forall tally_entry_ok); [exact Hacc |].
    unfold tally_entry_ok. destruct (got_correct a); cbn; lia.
  - apply (set_Forall tally_entry_ok); [exact Hacc |].
    unfold tally_entry_ok. destruct (got_correct a); cbn; lia.
Qed.

Lemma tally_ok (key : AnswerData -> string) (answers : list AnswerData) :
  Forall (fun kv => tally_entry_ok (snd kv)) (tally key answers).
Proof.
  unfold tally.
  assert (H : forall acc,
             Forall (fun kv => tally_entry_ok (snd kv)) acc ->
             Forall (fun kv => tally_entry_ok (snd kv))
               (fold_left (tally_step key) answers acc)).
  { induction answers as [| a answers IH]; intros acc Hacc; cbn.
    - exact Hacc.
    - apply IH, tally_step_ok, Hacc. }
  apply H. constructor.
Qed.

Lemma ratio_in_unit (c t : Z) :
  0 <= c <= t -> 1 <= t -> in_unit (inject_Z c / inject_Z t)%Q.
Proof.
  intros Hc Ht. unfold in_unit.
  assert (Hpos : (0 < inject_Z t)%Q).
  { change 0%Q with (inject_Z 0). rewrite <- Zlt_Qlt. lia. }
  split.
  - apply Qle_shift_div_l; [exact Hpos |].
    rewrite Qmult_0_l. change 0%Q with (inject_Z 0). rewrite <- Zle_Qle. lia.
  - apply Qle_shift_div_r; [exact Hpos |].
    rewrite Qmult_1_l. rewrite <- Zle_Qle. lia.
Qed.

Lemma guarded_ratios_in_unit (d : dict (Z * Z)) :
  Forall (fun kv => tally_entry_ok (snd kv)) d ->
  scores_in_unit (guarded_ratios d).
Proof.
  unfold guarded_ratios, scores_in_unit.
  induction 1 as [| [k [c t]] d [Hc Ht] _ IH]; cbn [map]; constructor;
    [| exact IH].
  cbn in *. destruct (0 <? t) eqn:E.
  - apply ratio_in_unit; assumption.
  - apply Z.ltb_ge in E. lia.
Qed.

Lemma ratios_in_unit (d : dict (Z * Z)) :
  Forall (fun kv => tally_entry_ok (snd kv)) d ->
  exists qs, ratios d = Some qs /\ scores_in_unit qs.
Proof.
  induction 1 as [| [k [c t]] d [Hc Ht] _ IH]; cbn [ratios].
  - exists []. split; [reflexivity | constructor].
  - destruct IH as (qs & -> & Hqs). cbn in Hc, Ht.
    rewrite (div_defined _ _ (inject_Z_nonzero t ltac:(lia))).
    cbn [mbind option_bind]. eexists. split; [reflexivity |].
    constructor; [| exact Hqs]. apply ratio_in_unit; assumption.
Qed.

Lemma count_le_len {A} (f : A -> bool) (xs : list A) :
  0 <= Py.count f xs <= Py.len xs.
Proof.
  unfold Py.count, Py.len. pose proof (List.filter_length_le f xs). lia.
Qed.

Lemma window_accuracies_defined (w : Z) (starts : list nat)
    (answers : list AnswerData) :
  w <> 0 -> is_Some (window_accuracies w starts answers).
Proof.
  intros Hw. induction starts as [| i starts [accs IH]]; cbn [window_accuracies].
  - eexists. reflexivity.
  - rewrite (div_defined _ _ (inject_Z_nonzero w Hw)).
    rewrite IH. cbn [mbind option_bind]. eexists. reflexivity.
Qed.

Lemma calculate_trend_defined (answers : list AnswerData) :
  is_Some (_calculate_trend answers).
Proof.
  unfold _calculate_trend.
  destruct (Py.len answers <? 3) eqn:E; [eexists; reflexivity |].
  apply Z.ltb_ge in E.
  destruct (window_accuracies_defined (Z.min 3 (Py.len answers / 3))
              (seq 0 (Z.to_nat (Py.len answers - Z.min 3 (Py.len answers / 3) + 1)))
              answers) as [accs ->].
  - assert (1 <= Py.len answers / 3) by (apply Z.div_le_lower_bound; lia). lia.
  - cbn [mbind option_bind].
    destruct accs; [eexists; reflexivity |].
    repeat match goal with
           | |- context [if ?b then _ else _] => destruct b
           end; eexists; reflexivity.
Qed.

Lemma identify_patterns_defined (answers : list AnswerData) :
  is_Some (_identify_patterns answers).
Proof.
  destruct (identify_patterns_flags answers) as (p & _ & -> & _).
  eexists. reflexivity.
Qed.

(** [generate_report] returns for every answer list, and what it
    returns is within the bounds [update_user_model] is given. *)
Lemma generate_report_in_range (self : AnalyticsEngine) (now : datetime)
    (quiz_id : string) (answers : list AnswerData) (time_taken : option Z) :
  exists self' r,
    generate_report self now quiz_id answers time_taken = Some (self', r)
    /\ report_ok (Adaptive.of_report r).
Proof.
  unfold generate_report.
  assert (Hscore : exists score,
             match answers with
             | [] => Some 0%Q
             | _ => Py.div (inject_Z (Py.count got_correct answers))
                      (inject_Z (Py.len answers))
             end = Some score).
  { destruct answers as [| a answers]; [eexists; reflexivity |].
    rewrite div_defined by (apply len_nonzero; discriminate).
    eexists. reflexivity. }
  destruct Hscore as [score ->]. cbn [mbind option_bind].
  assert (Htime : exists tm,
             match time_taken with
             | Some t =>
                 if negb (t =? 0) && negb (Py.len answers =? 0) then
                   average ← Py.div (inject_Z t) (inject_Z (Py.len answers));
                   per_correct ←
                     (if Py.count got_correct answers =? 0 then Some 0%Q
                      else Py.div (inject_Z t)
                             (inject_Z (Py.count got_correct answers)));
                   Some (Some average, Some per_correct)
                 else Some (None, None)
             | None => Some (None, None)
             end = Some tm).
  { destruct time_taken as [t |]; [| eexists; reflexivity].
    destruct (negb (t =? 0) && negb (Py.len answers =? 0)) eqn:E;
      [| eexists; reflexivity].
    apply andb_prop in E. destruct E as [_ E].
    apply negb_true_iff, Z.eqb_neq in E.
    rewrite (div_defined _ _ (inject_Z_nonzero _ E)).
    cbn [mbind option_bind].
    destruct (Py.count got_correct answers =? 0) eqn:Ec.
    - cbn [mbind option_bind]. eexists. reflexivity.
    - apply Z.eqb_neq in Ec.
      rewrite (div_defined _ _ (inject_Z_nonzero _ Ec)).
      cbn [mbind option_bind]. eexists. reflexivity. }
  destruct Htime as [tm ->]. cbn [mbind option_bind].
  destruct (ratios_in_unit _ (tally_ok (fun a => default "General" (topic a)) answers))
    as (topics & -> & Htopics).
  cbn [mbind option_bind].
  destruct (identify_patterns_defined answers) as [pats ->].
  cbn [mbind option_bind].
  destruct (calculate_trend_defined answers) as [trend ->].
  cbn [mbind option_bind].
  eexists _, _. split; [reflexivity |].
  unfold report_ok, Adaptive.of_report. cbn.
  split; [apply count_le_len |].
  split; [exact Htopics |].
  apply guarded_ratios_in_unit, tally_ok.
Qed.




End Pipeline.

(** * Further properties of the analytics engine *)

(** ** The per-question ledger *)

(** Inversion of a chain of binds in a hypothesis. *)
Ltac bind_inv H :=
  repeat match type of H with
         | context [mbind _ ?x] =>
             let E := fresh "E" in
             destruct x eqn:E; cbn [mbind option_bind] in H;
             [| discriminate H]
         end.

Section QuestionLedger.
Import DateTime Analytics Spec Samples.

Lemma mistakes_total_bump (k : string) (d : dict Z) :
  mistakes_total (Dict.set k (default 0 (Dict.get k d) + 1) d)
  = mistakes_total d + 1.
Proof.
  unfold mistakes_total, Dict.values.
  induction d as [| [k' v'] d IH]; cbn.
  - lia.
  - destruct (String.eqb k k') eqn:E; cbn.
    + lia.
    + rewrite IH. lia.
Qed.

(** What one call does to the entry of its question. *)
Lemma update_question_ok (e e' : QuestionAnalytics) (a : AnswerData) :
  0 <= attempts e ->
  0 <= correct e <= attempts e ->
  0 <= mistakes_total (common_mistakes e) <= attempts e - correct e ->
  update_question e a = Some e' ->
  question_ok e'.
Proof.
  intros Ha Hc Hm H. unfold update_question in H.
  assert (Hmist :
    0 <= mistakes_total
           (if got_correct a then common_mistakes e
            else match user_answer a with
                 | Some wrong_answer =>
                     if String.eqb wrong_answer "" then common_mistakes e
                     else Dict.set wrong_answer
                            (default 0 (Dict.get wrong_answer (common_mistakes e)) + 1)
                            (common_mistakes e)
                 | None => common_mistakes e
                 end)
      <= attempts e + 1
         - (if got_correct a then correct e + 1 else correct e)).
  { destruct (got_correct a); [lia |].
    destruct (user_answer a) as [w |]; [| lia].
    destruct (String.eqb w ""); [lia |].
    rewrite mistakes_total_bump. lia. }
  destruct (time_taken a) as [t |].
  - destruct (Py.div _ _) as [avg |]; cbn [mbind option_bind] in H;
      [| discriminate H].
    injection H as <-. unfold question_ok.
    cbn [attempts correct common_mistakes].
    revert Hmist. destruct (got_correct a); intros Hmist; lia.
  - injection H as <-. unfold question_ok.
    cbn [attempts correct common_mistakes].
    revert Hmist. destruct (got_correct a); intros Hmist; lia.
Qed.

Lemma update_question_defined (e : QuestionAnalytics) (a : AnswerData) :
  0 <= attempts e -> is_Some (update_question e a).
Proof.
  intros Ha. unfold update_question.
  destruct (time_taken a) as [t |]; [| eexists; reflexivity].
  rewrite (div_defined _ _ (attempts_nonzero _ Ha)).
  cbn [mbind option_bind]. eexists. reflexivity.
Qed.

Lemma fresh_or_ok (self : AnalyticsEngine) (qid : string) :
  (forall q e, question_analytics self !! q = Some e -> question_ok e) ->
  let e := default fresh_question (question_analytics self !! qid) in
  0 <= attempts e
  /\ 0 <= correct e <= attempts e
  /\ 0 <= mistakes_total (common_mistakes e) <= attempts e - correct e.
Proof.
  intros Hok. cbv zeta.
  destruct (question_analytics self !! qid) as [e |] eqn:E; cbn.
  - destruct (Hok qid e E) as (H1 & H2 & H3). lia.
  - unfold mistakes_total. cbn. lia.
Qed.

Lemma generate_report_frame (self self' : AnalyticsEngine) (r : Report)
    (now : datetime) (quiz_id : string) (answers : list AnswerData)
    (time_taken : option Z) :
  generate_report self now quiz_id answers time_taken = Some (self', r) ->
  sessions self' = sessions self
  /\ question_analytics self' = question_analytics self
  /\ quiz_results self' = <[quiz_id := r]> (quiz_results self).
Proof.
  unfold generate_report. intros H. bind_inv H.
  injection H as <- <-. repeat split.
Qed.

Lemma recorded_questions (self : AnalyticsEngine) :
  recorded self ->
  forall qid e, question_analytics self !! qid = Some e -> question_ok e.
Proof.
  induction 1 as [| self now uid md _ IH _
                  | self self' now uid qid a _ IH _ Ht
                  | self self' r now quiz answers tt _ IH Hr].
  - intros qid e H. cbn in H. rewrite lookup_empty in H. discriminate H.
  - exact IH.
  - intros q e. unfold track_answer in Ht.
    destruct (update_question _ a) as [e' |] eqn:Hu;
      cbn [mbind option_bind] in Ht; [| discriminate Ht].
    injection Ht as <-. cbn. rewrite lookup_insert. case_decide.
    + intros [= <-].
      destruct (fresh_or_ok self qid IH) as (H1 & H2 & H3).
      exact (update_question_ok _ _ _ H1 H2 H3 Hu).
    + apply IH.
  - destruct (generate_report_frame _ _ _ _ _ _ _ Hr) as (_ & -> & _).
    exact IH.
Qed.

(** X1. On every state that the engine's own operations build, the
    entry of each question has at least one attempt, no more correct
    answers than attempts, and no more counted mistakes than incorrect
    attempts; and [track_answer] returns on it, whatever the answer. *)
Theorem question_bookkeeping (self : AnalyticsEngine) :
  recorded self ->
  (forall qid e, question_analytics self !! qid = Some e -> question_ok e)
  /\ (forall now uid qid a, is_Some (track_answer self now uid qid a)).
Proof.
  intros Hrec. pose proof (recorded_questions self Hrec) as Hok.
  split; [exact Hok |].
  intros now uid qid a. unfold track_answer.
  destruct (update_question_defined
              (default fresh_question (question_analytics self !! qid)) a)
    as [e' ->].
  - apply (fresh_or_ok self qid Hok).
  - cbn [mbind option_bind]. eexists. reflexivity.
Qed.

Lemma three_answers_recorded (s : AnalyticsEngine) :
  three_answers = Some s -> recorded s.
Proof.
  unfold three_answers. intros H.
  destruct (track_answer init day_one "ann" "q1" (timed_answer 12))
    as [s1 |] eqn:H1; cbn [mbind option_bind] in H; [| discriminate H].
  destruct (track_answer s1 day_one "ann" "q2" _)
    as [s2 |] eqn:H2; cbn [mbind option_bind] in H; [| discriminate H].
  eapply recorded_answer; [| | exact H].
  - eapply recorded_answer; [| | exact H2].
    + eapply recorded_answer; [apply recorded_init | | exact H1]. reflexivity.
    + reflexivity.
  - reflexivity.
Qed.

Lemma three_answers_defined : exists s, three_answers = Some s.
Proof. vm_compute. eexists. reflexivity. Qed.

Lemma question_bookkeeping_witness :
  exists s,
    three_answers = Some s
    /\ (forall qid e, question_analytics s !! qid = Some e -> question_ok e).
Proof.
  destruct three_answers_defined as [s Hs].
  exists s. split; [exact Hs |].
  apply (question_bookkeeping s (three_answers_recorded s Hs)).
Defined.





End QuestionLedger.

(** ** Grouping events into sessions *)

Section SessionGrouping.
Import DateTime Analytics Spec Samples.

Lemma readable_isoformat (now : datetime) :
  valid now = true -> is_Some (fromisoformat (isoformat now)).
Proof. intros H. rewrite (fromisoformat_isoformat now H). eexists. reflexivity. Qed.

Lemma append_event_readable (self : AnalyticsEngine) (uid : string) (e : Event) :
  timestamps_ok self -> readable e -> timestamps_ok (append_event self uid e).
Proof.
  intros Hok He u events. unfold append_event. cbn.
  rewrite lookup_insert. case_decide.
  - intros [= <-]. apply Forall_app.
    split; [| constructor; [exact He | constructor]].
    destruct (sessions self !! uid) as [old |] eqn:E; cbn.
    + exact (Hok uid old E).
    + constructor.
  - apply Hok.
Qed.

Lemma recorded_timestamps (self : AnalyticsEngine) :
  recorded self -> timestamps_ok self.
Proof.
  induction 1 as [| self now uid md _ IH Hnow
                  | self self' now uid qid a _ IH Hnow Ht
                  | self self' r now quiz answers tt _ IH Hr].
  - intros u events H. cbn in H. rewrite lookup_empty in H. discriminate H.
  - apply append_event_readable; [exact IH |].
    apply readable_isoformat, Hnow.
  - unfold track_answer in Ht.
    destruct (update_question _ a) as [e' |];
      cbn [mbind option_bind] in Ht; [| discriminate Ht].
    injection Ht as <-.
    apply append_event_readable; [exact IH |].
    apply readable_isoformat, Hnow.
  - destruct (generate_report_frame _ _ _ _ _ _ _ Hr) as (Hs & _ & _).
    intros u events. rewrite Hs. apply IH.
Qed.

Lemma index_first {A} (x : A) (xs : list A) : Py.index (x :: xs) 0 = Some x.
Proof. reflexivity. Qed.

Lemma index_last {A} (x : A) (xs : list A) :
  exists y, Py.index (x :: xs) (-1) = Some y /\ In y (x :: xs).
Proof.
  unfold Py.index.
  set (n := Z.of_nat (length (x :: xs))).
  assert (Hn : 1 <= n) by (subst n; cbn [length]; lia).
  change (0 <=? -1) with false. cbn [andb].
  assert (E : (- n <=? -1) && (-1 <? 0) = true).
  { apply andb_true_intro. split; [apply Z.leb_le; lia | reflexivity]. }
  rewrite E.
  destruct (nth_error (x :: xs) (Z.to_nat (-1 + n))) as [y |] eqn:Hy.
  - exists y. split; [reflexivity |]. exact (nth_error_In _ _ Hy).
  - apply nth_error_None in Hy. subst n. lia.
Qed.

Lemma isum_acc (xs : list Z) :
  forall a, fold_left Z.add xs a = a + Py.isum xs.
Proof.
  unfold Py.isum. induction xs as [| x xs IH]; intros a; cbn [fold_left].
  - lia.
  - rewrite (IH (a + x)), (IH (0 + x)). lia.
Qed.

Lemma isum_app (xs ys : list Z) : Py.isum (xs ++ ys) = Py.isum xs + Py.isum ys.
Proof.
  unfold Py.isum at 1. rewrite fold_left_app.
  fold (Py.isum xs). rewrite isum_acc. reflexivity.
Qed.

Lemma isum_one (x : Z) : Py.isum [x] = x.
Proof. reflexivity. Qed.

Lemma len_app {A} (xs ys : list A) : Py.len (xs ++ ys) = Py.len xs + Py.len ys.
Proof. unfold Py.len. rewrite length_app. lia. Qed.

Lemma count_app {A} (f : A -> bool) (xs ys : list A) :
  Py.count f (xs ++ ys) = Py.count f xs + Py.count f ys.
Proof. unfold Py.count. rewrite List.filter_app, length_app. lia. Qed.

Lemma answers_of_app (xs ys : list Event) :
  answers_of (xs ++ ys) = answers_of xs ++ answers_of ys.
Proof. unfold answers_of. apply flat_map_app. Qed.

(** What [_process_session] makes of a non-empty run of events. *)
Lemma process_session_summary (e : Event) (events : list Event) :
  Forall readable (e :: events) ->
  exists s,
    _process_session (e :: events) = Some s
    /\ summary_ok s
    /\ start_time s = timestamp_of e
    /\ questions_answered s = Py.len (answers_of (e :: events))
    /\ correct_answers s = Py.count got_correct (answers_of (e :: events)).
Proof.
  intros Hr. unfold _process_session. rewrite index_first.
  destruct (index_last e events) as (final & -> & Hin).
  cbn [mbind option_bind]. eexists. split; [reflexivity |].
  split; [| repeat split].
  unfold summary_ok. cbn [start_time end_time questions_answered correct_answers
                            topic_performance bloom_performance Analytics.accuracy].
  pose proof (count_le_len got_correct (answers_of (e :: events))) as Hc.
  split; [exact Hc |].
  split.
  { match goal with
    | |- context [if ?b then _ else _] => destruct b eqn:E
    end.
    - apply Z.ltb_lt in E. apply ratio_in_unit; lia.
    - unfold in_unit. lra. }
  split; [apply guarded_ratios_in_unit, tally_ok |].
  split; [apply guarded_ratios_in_unit, tally_ok |].
  split.
  - exact (Forall_inv Hr).
  - rewrite Forall_forall in Hr. apply Hr. apply list_elem_of_In. exact Hin.
Qed.

(** The invariant of the grouping loop: the summaries are in range, the
    open session holds readable events, and no answer is lost or
    counted twice. *)
Lemma scan_invariant (events : list Event) :
  forall ss cur last,
    Forall readable events -> Forall readable cur -> Forall summary_ok ss ->
    exists ss' cur' last',
      scan (ss, cur, last) events = Some (ss', cur', last')
      /\ Forall readable cur' /\ Forall summary_ok ss'
      /\ Py.isum (map questions_answered ss') + Py.len (answers_of cur')
         = Py.isum (map questions_answered ss) + Py.len (answers_of cur)
           + Py.len (answers_of events)
      /\ Py.isum (map correct_answers ss')
         + Py.count got_correct (answers_of cur')
         = Py.isum (map correct_answers ss)
           + Py.count got_correct (answers_of cur)
           + Py.count got_correct (answers_of events)
      /\ (events <> [] -> cur' <> []).
Proof.
  induction events as [| e events IH]; intros ss cur last He Hcur Hss.
  - exists ss, cur, last. cbn [scan].
    split; [reflexivity |]. split; [exact Hcur |]. split; [exact Hss |].
    split; [cbn; unfold Py.len; cbn; lia |].
    split; [cbn; unfold Py.count; cbn; lia |]. congruence.
  - pose proof (Forall_inv He) as Hre. pose proof (Forall_inv_tail He) as Hrest.
    cbn [scan]. unfold scan_step.
    destruct Hre as [ts Hts]. rewrite Hts. cbn [mbind option_bind].
    assert (Hstep : exists ss1 cur1,
      (if new_session_test last ts
       then match cur with
            | [] => Some (ss, [])
            | _ :: _ => s ← _process_session cur; Some (ss ++ [s], [])
            end
       else Some (ss, cur)) = Some (ss1, cur1)
      /\ Forall readable cur1 /\ Forall summary_ok ss1
      /\ Py.isum (map questions_answered ss1) + Py.len (answers_of cur1)
         = Py.isum (map questions_answered ss) + Py.len (answers_of cur)
      /\ Py.isum (map correct_answers ss1)
         + Py.count got_correct (answers_of cur1)
         = Py.isum (map correct_answers ss)
           + Py.count got_correct (answers_of cur)).
    { destruct (new_session_test last ts).
      - destruct cur as [| c cur].
        + exists ss, []. repeat split; assumption.
        + destruct (process_session_summary c cur Hcur)
            as (s & -> & Hs & _ & Hq & Hc).
          cbn [mbind option_bind]. exists (ss ++ [s]), [].
          split; [reflexivity |]. split; [constructor |].
          split; [apply Forall_app; split; [exact Hss | constructor; [exact Hs | constructor]] |].
          rewrite !map_app, !isum_app. cbn [map]. rewrite !isum_one, Hq, Hc.
          change (answers_of []) with (@nil AnswerData).
          unfold Py.len at 2, Py.count at 2. cbn. split; lia.
      - exists ss, cur. repeat split; assumption. }
    destruct Hstep as (ss1 & cur1 & -> & Hcur1 & Hss1 & Hq1 & Hc1).
    cbn [mbind option_bind fst snd].
    destruct (IH ss1 (cur1 ++ [e]) (Some ts) Hrest) as
      (ss' & cur' & last' & Hscan & Hcur' & Hss' & Hq' & Hc' & _).
    { apply Forall_app. split; [exact Hcur1 |].
      constructor; [exists ts; exact Hts | constructor]. }
    { exact Hss1. }
    exists ss', cur', last'. split; [exact Hscan |].
    split; [exact Hcur' |]. split; [exact Hss' |].
    rewrite answers_of_app, len_app in Hq'.
    rewrite answers_of_app, count_app in Hc'.
    change (e :: events) with ([e] ++ events).
    rewrite !answers_of_app, len_app, count_app.
    split; [lia |]. split; [lia |].
    intros _ ->.
    destruct events as [| e2 events].
    + cbn [scan] in Hscan. injection Hscan as _ Hx _.
      destruct cur1; discriminate Hx.
    + destruct (IH ss1 (cur1 ++ [e]) (Some ts) Hrest) as
        (ss2 & cur2 & last2 & Hscan2 & _ & _ & _ & _ & Hne).
      { apply Forall_app. split; [exact Hcur1 |].
        constructor; [exists ts; exact Hts | constructor]. }
      { exact Hss1. }
      rewrite Hscan in Hscan2. injection Hscan2 as _ <- _.
      apply Hne; [discriminate | reflexivity].
Qed.

Lemma group_sessions_summary (events : list Event) :
  Forall readable events ->
  exists ss,
    group_sessions events = Some ss
    /\ Forall summary_ok ss
    /\ Py.isum (map questions_answered ss) = Py.len (answers_of events)
    /\ Py.isum (map correct_answers ss)
       = Py.count got_correct (answers_of events)
    /\ (events <> [] -> ss <> []).
Proof.
  intros He. unfold group_sessions.
  destruct (scan_invariant events [] [] None He ltac:(constructor) ltac:(constructor))
    as (ss & cur & last & -> & Hcur & Hss & Hq & Hc & Hne).
  cbn [mbind option_bind].
  change (answers_of []) with (@nil AnswerData) in Hq, Hc.
  unfold Py.len at 2 in Hq. unfold Py.count at 2 in Hc. cbn in Hq, Hc.
  destruct cur as [| c cur].
  - exists ss. split; [reflexivity |]. split; [exact Hss |].
    unfold Py.len at 1 in Hq. unfold Py.count at 1 in Hc. cbn in Hq, Hc.
    split; [lia |]. split; [lia |].
    intros Hev. exfalso. apply (Hne Hev). reflexivity.
  - destruct (process_session_summary c cur Hcur) as (s & -> & Hs & _ & Hsq & Hsc).
    cbn [mbind option_bind]. exists (ss ++ [s]). split; [reflexivity |].
    split; [apply Forall_app; split; [exact Hss | constructor; [exact Hs | constructor]] |].
    rewrite !map_app, !isum_app. cbn [map]. rewrite !isum_one, Hsq, Hsc.
    split; [lia |]. split; [lia |].
    intros _ E. apply (f_equal (@length _)) in E. rewrite length_app in E.
    cbn in E. lia.
Qed.



(** X5. The sessions of [get_user_history] partition the answers: over
    the summaries of all sessions of a learner (before the cut to the
    last ten), [questions_answered] adds up to the number of
    [answer_submitted] events and [correct_answers] to the number of
    correct ones; a non-empty event list gives at least one session. *)
Theorem sessions_count_every_answer (self : AnalyticsEngine) (uid : string)
    (events : list Event) :
  sessions self !! uid = Some events ->
  Forall readable events ->
  exists ss h,
    group_sessions events = Some ss
    /\ get_user_history self uid = Some h
    /\ recent_sessions h = Py.last_n 10 ss
    /\ Py.isum (map questions_answered ss) = Py.len (answers_of events)
    /\ Py.isum (map correct_answers ss)
       = Py.count got_correct (answers_of events)
    /\ (events <> [] -> ss <> []).
Proof.
  intros He Hr.
  destruct (group_sessions_summary events Hr) as (ss & Hg & _ & Hq & Hc & Hne).
  exists ss. unfold get_user_history. rewrite He, Hg. cbn [mbind option_bind].
  eexists. split; [reflexivity |]. split; [reflexivity |]. cbn.
  repeat split; assumption.
Qed.

Lemma sessions_count_every_answer_witness :
  exists s events ss,
    three_answers = Some s
    /\ sessions s !! "ann" = Some events
    /\ group_sessions events = Some ss
    /\ Py.isum (map questions_answered ss) = Py.len (answers_of events).
Proof.
  destruct three_answers_defined as [s Hs].
  pose proof (recorded_timestamps s (three_answers_recorded s Hs)) as Hts.
  destruct (sessions s !! "ann") as [events |] eqn:He.
  - destruct (sessions_count_every_answer s "ann" events He (Hts "ann" events He))
      as (ss & h & Hg & _ & _ & Hq & _).
    exists s, events, ss. repeat split; assumption.
  - vm_compute in Hs. injection Hs as <-. vm_compute in He. discriminate He.
Defined.

End SessionGrouping.

(** ** Quiz reports *)

Section Reports.
Import DateTime Analytics Spec Samples.

(** X6. [generate_report] returns for every answer list and every
    [time_taken]. The report counts [len(answers)] questions, its
    correct and incorrect answers add up to that, the overall score and
    every topic, bloom and type score lie in [[0,1]], the percentage is
    100 times the score, and [average_time] is absent exactly when the
    list is empty or [time_taken] is [None] or 0. The report is stored
    under the quiz id and the recorded events are left alone. *)
Theorem generate_report_consistent (self : AnalyticsEngine) (now : datetime)
    (quiz_id : string) (answers : list AnswerData) (time_taken : option Z) :
  exists self' r,
    generate_report self now quiz_id answers time_taken = Some (self', r)
    /\ r_total_questions r = Py.len answers
    /\ r_correct_answers r + r_incorrect_answers r = r_total_questions r
    /\ 0 <= r_correct_answers r <= r_total_questions r
    /\ in_unit (r_overall_score r)
    /\ r_percentage r = (r_overall_score r * 100)%Q
    /\ scores_in_unit (r_topic_scores r)
    /\ scores_in_unit (r_bloom_scores r)
    /\ scores_in_unit (r_type_scores r)
    /\ (r_average_time r = None <->
        answers = [] \/ time_taken = None \/ time_taken = Some 0)
    /\ quiz_results self' !! quiz_id = Some r
    /\ sessions self' = sessions self.
Proof.
  unfold generate_report.
  pose proof (count_le_len got_correct answers) as Hcount.
  assert (Hscore : exists score,
             match answers with
             | [] => Some 0%Q
             | _ => Py.div (inject_Z (Py.count got_correct answers))
                      (inject_Z (Py.len answers))
             end = Some score /\ in_unit score).
  { destruct answers as [| a answers].
    - exists 0%Q. split; [reflexivity |]. unfold in_unit. lra.
    - rewrite div_defined by (apply len_nonzero; discriminate).
      eexists. split; [reflexivity |].
      apply ratio_in_unit; [exact Hcount |].
      unfold Py.len. cbn [length]. lia. }
  destruct Hscore as (score & -> & Hscore). cbn [mbind option_bind].
  assert (Htime : exists tm,
             match time_taken with
             | Some t =>
                 if negb (t =? 0) && negb (Py.len answers =? 0) then
                   average ← Py.div (inject_Z t) (inject_Z (Py.len answers));
                   per_correct ←
                     (if Py.count got_correct answers =? 0 then Some 0%Q
                      else Py.div (inject_Z t)
                             (inject_Z (Py.count got_correct answers)));
                   Some (Some average, Some per_correct)
                 else Some (None, None)
             | None => Some (None, None)
             end = Some tm
             /\ (fst tm = None <->
                 answers = [] \/ time_taken = None \/ time_taken = Some 0)).
  { destruct time_taken as [t |];
      [| eexists; split; [reflexivity |]; cbn; tauto].
    destruct (negb (t =? 0) && negb (Py.len answers =? 0)) eqn:E.
    - apply andb_prop in E. destruct E as [E0 E].
      apply negb_true_iff, Z.eqb_neq in E0.
      apply negb_true_iff, Z.eqb_neq in E.
      rewrite (div_defined _ _ (inject_Z_nonzero _ E)).
      cbn [mbind option_bind].
      assert (Hne : answers <> []) by (intros ->; apply E; reflexivity).
      destruct (Py.count got_correct answers =? 0) eqn:Ec.
      + cbn [mbind option_bind]. eexists. split; [reflexivity |]. cbn.
        split; [discriminate |]. intros [H | [H | H]]; congruence.
      + apply Z.eqb_neq in Ec.
        rewrite (div_defined _ _ (inject_Z_nonzero _ Ec)).
        cbn [mbind option_bind]. eexists. split; [reflexivity |]. cbn.
        split; [discriminate |]. intros [H | [H | H]]; congruence.
    - eexists. split; [reflexivity |]. cbn. split; [intros _ | reflexivity].
      apply andb_false_iff in E. destruct E as [E | E].
      + apply negb_false_iff, Z.eqb_eq in E. subst t. tauto.
      + apply negb_false_iff, Z.eqb_eq in E. left.
        destruct answers; [reflexivity |]. unfold Py.len in E.
        cbn [length] in E. lia. }
  destruct Htime as (tm & -> & Htm). cbn [mbind option_bind].
  destruct (ratios_in_unit _ (tally_ok (fun a => default "General" (topic a)) answers))
    as (topics & -> & Htopics).
  cbn [mbind option_bind].
  destruct (identify_patterns_defined answers) as [pats ->].
  cbn [mbind option_bind].
  destruct (calculate_trend_defined answers) as [trend ->].
  cbn [mbind option_bind].
  eexists _, _. split; [reflexivity |]. cbn.
  split; [reflexivity |].
  split; [lia |].
  split; [exact Hcount |].
  split; [exact Hscore |].
  split; [reflexivity |].
  split; [exact Htopics |].
  split; [apply guarded_ratios_in_unit, tally_ok |].
  split; [apply guarded_ratios_in_unit, tally_ok |].
  split; [exact Htm |].
  split; [apply lookup_insert_eq | reflexivity].
Qed.

(** The step of the loop of [_calculate_streak]. *)
Lemma streak_fold_bounds (b : bool) (answers : list AnswerData) :
  forall m c k,
    0 <= c <= m -> m <= k ->
    let r := fold_left
               (fun '(max_streak, current_streak) answer =>
                  if Bool.eqb (default false (is_correct answer)) b
                  then (Z.max max_streak (current_streak + 1), current_streak + 1)
                  else (max_streak, 0))
               answers (m, c) in
    0 <= snd r <= fst r
    /\ fst r <= k + Py.count
                      (fun a => Bool.eqb (default false (is_correct a)) b) answers
    /\ snd r <= c + Py.count
                      (fun a => Bool.eqb (default false (is_correct a)) b) answers.
Proof.
  induction answers as [| a answers IH]; intros m c k Hc Hm; cbv zeta.
  - cbn. unfold Py.count. cbn. lia.
  - cbn [fold_left].
    assert (Hcount : Py.count (fun a => Bool.eqb (default false (is_correct a)) b)
                       (a :: answers)
                     = (if Bool.eqb (default false (is_correct a)) b then 1 else 0)
                       + Py.count (fun a => Bool.eqb (default false (is_correct a)) b)
                           answers).
    { unfold Py.count. cbn [List.filter].
      destruct (Bool.eqb (default false (is_correct a)) b); cbn [length]; lia. }
    rewrite Hcount.
    destruct (Bool.eqb (default false (is_correct a)) b).
    + specialize (IH (Z.max m (c + 1)) (c + 1) (Z.max k (c + 1))
                    ltac:(lia) ltac:(lia)).
      cbv zeta in IH. destruct IH as (H1 & H2 & H3).
      split; [exact H1 |]. split; [| lia].
      assert (Z.max k (c + 1) <= k + 1 \/ k < c + 1) by lia.
      lia.
    + specialize (IH m 0 k ltac:(lia) ltac:(lia)).
      cbv zeta in IH. destruct IH as (H1 & H2 & H3).
      split; [exact H1 |]. split; lia.
Qed.

Lemma streak_fold_all (b : bool) (answers : list AnswerData) :
  Forall (fun a => Bool.eqb (default false (is_correct a)) b = true) answers ->
  forall m c, c <= m ->
    fold_left
      (fun '(max_streak, current_streak) answer =>
         if Bool.eqb (default false (is_correct answer)) b
         then (Z.max max_streak (current_streak + 1), current_streak + 1)
         else (max_streak, 0))
      answers (m, c)
    = (Z.max m (c + Py.len answers), c + Py.len answers).
Proof.
  induction 1 as [| a answers Ha _ IH]; intros m c Hc.
  - unfold Py.len. cbn [fold_left length].
    change (Z.of_nat 0) with 0. f_equal; lia.
  - cbn [fold_left]. rewrite Ha, IH by lia.
    unfold Py.len. cbn [length]. f_equal; lia.
Qed.

Lemma streak_fold_none (b : bool) (answers : list AnswerData) :
  Forall (fun a => Bool.eqb (default false (is_correct a)) b = false) answers ->
  forall m c, 0 <= c <= m ->
    fst (fold_left
           (fun '(max_streak, current_streak) answer =>
              if Bool.eqb (default false (is_correct answer)) b
              then (Z.max max_streak (current_streak + 1), current_streak + 1)
              else (max_streak, 0))
           answers (m, c)) = m.
Proof.
  induction 1 as [| a answers Ha _ IH]; intros m c Hc.
  - reflexivity.
  - cbn [fold_left]. rewrite Ha. apply IH. lia.
Qed.

Lemma matches_true (a : AnswerData) :
  Bool.eqb (default false (is_correct a)) true = got_correct a.
Proof. unfold got_correct. destruct (is_correct a) as [[|] |]; reflexivity. Qed.

Lemma matches_false (a : AnswerData) :
  Bool.eqb (default false (is_correct a)) false = negb (got_correct a).
Proof. unfold got_correct. destruct (is_correct a) as [[|] |]; reflexivity. Qed.

Lemma count_ext {A} (f g : A -> bool) (xs : list A) :
  (forall x, f x = g x) -> Py.count f xs = Py.count g xs.
Proof.
  intros H. unfold Py.count. f_equal. f_equal. apply List.filter_ext. exact H.
Qed.

Lemma count_negb {A} (f : A -> bool) (xs : list A) :
  Py.count (fun x => negb (f x)) xs = Py.len xs - Py.count f xs.
Proof.
  unfold Py.count, Py.len. induction xs as [| x xs IH]; cbn [List.filter].
  - reflexivity.
  - destruct (f x); cbn [negb length]; lia.
Qed.

(** X7. The longest streak of correct answers is at most the number of
    correct answers, and the longest streak of incorrect ones at most
    the number of incorrect answers; when every answer is correct the
    correct streak is the whole list and the incorrect one is 0, and
    the other way round when none is. *)
Theorem streaks_bounded (answers : list AnswerData) :
  0 <= _calculate_streak answers true <= Py.count got_correct answers
  /\ 0 <= _calculate_streak answers false
       <= Py.len answers - Py.count got_correct answers
  /\ (uniform true answers ->
      _calculate_streak answers true = Py.len answers
      /\ _calculate_streak answers false = 0)
  /\ (uniform false answers ->
      _calculate_streak answers false = Py.len answers
      /\ _calculate_streak answers true = 0).
Proof.
  assert (Hb : forall b,
             0 <= _calculate_streak answers b
             <= Py.count (fun a => Bool.eqb (default false (is_correct a)) b)
                  answers).
  { intros b. unfold _calculate_streak.
    destruct answers as [| a answers]; [unfold Py.count; cbn; lia |].
    pose proof (streak_fold_bounds b (a :: answers) 0 0 0
                  ltac:(lia) ltac:(lia)) as H.
    cbv zeta in H. destruct H as (H1 & H2 & H3). lia. }
  assert (Hall : forall b,
             Forall (fun a => Bool.eqb (default false (is_correct a)) b = true)
               answers ->
             _calculate_streak answers b = Py.len answers).
  { intros b H. unfold _calculate_streak.
    destruct answers as [| a answers]; [reflexivity |].
    rewrite (streak_fold_all b _ H) by lia. cbn [fst].
    unfold Py.len. lia. }
  assert (Hnone : forall b,
             Forall (fun a => Bool.eqb (default false (is_correct a)) b = false)
               answers ->
             _calculate_streak answers b = 0).
  { intros b H. unfold _calculate_streak.
    destruct answers as [| a answers]; [reflexivity |].
    apply (streak_fold_none b _ H). lia. }
  split.
  { rewrite <- (count_ext _ _ answers matches_true). apply Hb. }
  split.
  { rewrite <- count_negb, <- (count_ext _ _ answers matches_false). apply Hb. }
  split.
  - intros Hu. unfold uniform in Hu. split.
    + apply Hall. eapply Forall_impl; [exact Hu |].
      intros a Ha. cbn. rewrite matches_true. exact Ha.
    + apply Hnone. eapply Forall_impl; [exact Hu |].
      intros a Ha. cbn. rewrite matches_false, Ha. reflexivity.
  - intros Hu. unfold uniform in Hu. split.
    + apply Hall. eapply Forall_impl; [exact Hu |].
      intros a Ha. cbn. rewrite matches_false, Ha. reflexivity.
    + apply Hnone. eapply Forall_impl; [exact Hu |].
      intros a Ha. cbn. rewrite matches_true. exact Ha.
Qed.

End Reports.

(** ** Trends *)

Section Trends.
Import DateTime Analytics Spec Samples.

Lemma indexed_snd (ys : list Q) : forall i, map snd (Py.indexed_from i ys) = ys.
Proof.
  induction ys as [| y ys IH]; intros i; cbn; [reflexivity |].
  rewrite IH. reflexivity.
Qed.

Lemma sum_constant (c : Q) (ys : list Q) :
  Forall (eq c) ys -> (Py.sum ys == inject_Z (Py.len ys) * c)%Q.
Proof.
  induction 1 as [| y ys <- _ IH].
  - rewrite sum_nil. unfold Py.len. cbn. ring.
  - rewrite sum_cons, IH. unfold Py.len. cbn [length].
    rewrite Nat2Z.inj_succ. unfold Z.succ. rewrite inject_Z_plus.
    change (inject_Z 1) with 1%Q. ring.
Qed.

Lemma sum_index_times_constant (c : Q) (ys : list Q) :
  Forall (eq c) ys ->
  forall i,
    (Py.sum (map (fun p => fst p * snd p) (Py.indexed_from i ys))
     == c * Py.sum (map fst (Py.indexed_from i ys)))%Q.
Proof.
  induction 1 as [| y ys <- _ IH]; intros i.
  - cbn [Py.indexed_from map]. rewrite !sum_nil. ring.
  - cbn [Py.indexed_from map fst snd]. rewrite !sum_cons, IH. ring.
Qed.

(** The least-squares slope of a constant series is zero. *)
Lemma polyfit_constant (c : Q) (ys : list Q) :
  Forall (eq c) ys -> (Py.polyfit_slope ys == 0)%Q.
Proof.
  intros H. unfold Py.polyfit_slope. cbv zeta.
  rewrite (sum_index_times_constant c ys H 0), indexed_snd, (sum_constant c ys H).
  set (n := inject_Z (Py.len ys)).
  set (sx := Py.sum (map fst (Py.indexed_from 0 ys))).
  set (sxx := Py.sum (map _ (Py.indexed_from 0 ys))).
  assert (E : (n * (c * sx) - sx * (n * c) == 0)%Q) by ring.
  rewrite E. unfold Qdiv. ring.
Qed.

Lemma count_uniform (b : bool) (xs : list AnswerData) :
  uniform b xs -> Py.count got_correct xs = if b then Py.len xs else 0.
Proof.
  unfold uniform, Py.count, Py.len.
  induction 1 as [| x xs Hx _ IH]; cbn [List.filter].
  - destruct b; reflexivity.
  - rewrite Hx. destruct b; cbn [length]; lia.
Qed.

Lemma window_accuracies_uniform (b : bool) (w : Z) (answers : list AnswerData)
    (starts : list nat) :
  0 < w -> uniform b answers ->
  Forall (fun i => Z.of_nat i + w <= Py.len answers) starts ->
  exists accs,
    window_accuracies w starts answers = Some accs
    /\ Forall (eq (inject_Z (if b then w else 0) / inject_Z w)%Q) accs.
Proof.
  intros Hw Hu. induction 1 as [| i starts Hi _ IH]; cbn [window_accuracies].
  - exists []. split; [reflexivity | constructor].
  - destruct IH as (accs & -> & Haccs).
    rewrite (div_defined _ _ (inject_Z_nonzero w ltac:(lia))).
    cbn [mbind option_bind]. eexists. split; [reflexivity |].
    constructor; [| exact Haccs].
    rewrite (count_uniform b).
    + destruct b; [| reflexivity].
      f_equal. f_equal. unfold Py.len, Py.take, Py.drop.
      rewrite length_firstn, length_skipn. unfold Py.len in Hi. lia.
    + unfold uniform, Py.take, Py.drop in *.
      apply Forall_take, Forall_drop. exact Hu.
Qed.

(** X8. [_calculate_trend] returns for every answer list. The trend is
    [insufficient_data] exactly when there are fewer than three
    answers, and otherwise one of [improving], [declining] and
    [stable]; three or more answers that are all correct, or all
    incorrect, give [stable]. *)
Theorem trend_classes (answers : list AnswerData) :
  exists t,
    _calculate_trend answers = Some t
    /\ (Py.len answers < 3 <-> t = "insufficient_data")
    /\ (3 <= Py.len answers ->
        t = "improving" \/ t = "declining" \/ t = "stable")
    /\ (3 <= Py.len answers ->
        uniform true answers \/ uniform false answers -> t = "stable").
Proof.
  unfold _calculate_trend.
  destruct (Py.len answers <? 3) eqn:E.
  - apply Z.ltb_lt in E. exists "insufficient_data".
    split; [reflexivity |]. split; [tauto |]. split; intros; lia.
  - apply Z.ltb_ge in E.
    set (w := Z.min 3 (Py.len answers / 3)).
    assert (Hw : 0 < w).
    { assert (1 <= Py.len answers / 3) by (apply Z.div_le_lower_bound; lia).
      subst w. lia. }
    destruct (window_accuracies_defined w
                (seq 0 (Z.to_nat (Py.len answers - w + 1))) answers
                ltac:(lia)) as [accs Haccs].
    rewrite Haccs. cbn [mbind option_bind].
    assert (Hres : exists t,
               match accs with
               | [] => Some "stable"
               | _ :: _ =>
                   if Py.ltb (1 # 10) (Py.polyfit_slope accs)
                   then Some "improving"
                   else if Py.ltb (Py.polyfit_slope accs) (- (1 # 10))
                        then Some "declining" else Some "stable"
               end = Some t
               /\ (t = "improving" \/ t = "declining" \/ t = "stable")
               /\ ((Py.polyfit_slope accs == 0)%Q -> t = "stable")).
    { destruct accs as [| x accs].
      - exists "stable". split; [reflexivity |]. tauto.
      - destruct (Py.ltb (1 # 10) (Py.polyfit_slope (x :: accs))) eqn:E1.
        + exists "improving". split; [reflexivity |]. split; [tauto |].
          intros H0. apply ltb_lt in E1. rewrite H0 in E1. lra.
        + destruct (Py.ltb (Py.polyfit_slope (x :: accs)) (- (1 # 10))) eqn:E2.
          * exists "declining". split; [reflexivity |]. split; [tauto |].
            intros H0. apply ltb_lt in E2. rewrite H0 in E2. lra.
          * exists "stable". split; [reflexivity |]. tauto. }
    destruct Hres as (t & -> & Hcls & Hzero).
    exists t. split; [reflexivity |].
    split.
    { split; [lia |]. intros ->.
      destruct Hcls as [H | [H | H]]; discriminate H. }
    split; [intros _; exact Hcls |].
    intros _ Hu. apply Hzero.
    assert (Hstarts : Forall (fun i => Z.of_nat i + w <= Py.len answers)
                        (seq 0 (Z.to_nat (Py.len answers - w + 1)))).
    { apply Forall_forall. intros i Hi. apply list_elem_of_In, in_seq in Hi. lia. }
    destruct Hu as [Hu | Hu].
    + destruct (window_accuracies_uniform true w answers _ Hw Hu Hstarts)
        as (accs' & Ha' & Hc).
      rewrite Haccs in Ha'. injection Ha' as <-.
      exact (polyfit_constant _ _ Hc).
    + destruct (window_accuracies_uniform false w answers _ Hw Hu Hstarts)
        as (accs' & Ha' & Hc).
      rewrite Haccs in Ha'. injection Ha' as <-.
      exact (polyfit_constant _ _ Hc).
Qed.

End Trends.

(** ** Aggregated analytics, export and import *)

Section UserAnalyticsFacts.
Import DateTime Analytics Spec Samples.















End UserAnalyticsFacts.

(** * Further properties of the adaptive engine *)

(** ** Performance level, strengths and weaknesses *)

Section Levels.
Import DateTime Adaptive Spec Samples.

Lemma leb_le (a b : Q) : Py.leb a b = true <-> (a <= b)%Q.
Proof. unfold Py.leb. apply Qle_bool_iff. Qed.

Lemma leb_gt (a b : Q) : Py.leb a b = false -> (b < a)%Q.
Proof.
  intros H. apply Qnot_le_lt. intros Hle. apply leb_le in Hle. congruence.
Qed.

Lemma ltb_ge (a b : Q) : Py.ltb a b = false -> (b <= a)%Q.
Proof.
  intros H. apply Qnot_lt_le. intros Hlt. apply ltb_lt in Hlt. congruence.
Qed.

(** X11. A learner without answers is DEVELOPING, and the performance
    level follows the accuracy: of two profiles with answers, the one
    with the higher accuracy [correct / total] never gets the lower
    level. *)
Theorem level_monotone (p1 p2 : LearnerProfile) :
  (total_questions_answered p1 = 0 ->
   _calculate_performance_level p1 = DEVELOPING)
  /\ (total_questions_answered p1 <> 0 ->
      total_questions_answered p2 <> 0 ->
      (profile_accuracy p1 <= profile_accuracy p2)%Q ->
      level_rank (_calculate_performance_level p1)
      <= level_rank (_calculate_performance_level p2)).
Proof.
  unfold _calculate_performance_level. split.
  - intros ->. reflexivity.
  - intros H1 H2 Hle.
    apply Z.eqb_neq in H1. apply Z.eqb_neq in H2. rewrite H1, H2.
    fold (profile_accuracy p1). fold (profile_accuracy p2).
    unfold thresholds.
    destruct (Py.leb (95 # 100) (profile_accuracy p1)) eqn:A1;
      destruct (Py.leb (8 # 10) (profile_accuracy p1)) eqn:B1;
      destruct (Py.leb (6 # 10) (profile_accuracy p1)) eqn:C1;
      destruct (Py.leb (95 # 100) (profile_accuracy p2)) eqn:A2;
      destruct (Py.leb (8 # 10) (profile_accuracy p2)) eqn:B2;
      destruct (Py.leb (6 # 10) (profile_accuracy p2)) eqn:C2;
      cbn [level_rank]; try lia; exfalso;
      repeat match goal with
             | H : Py.leb _ _ = true |- _ => apply leb_le in H
             | H : Py.leb _ _ = false |- _ => apply leb_gt in H
             end; lra.
Qed.

Lemma level_monotone_witness :
  level_rank (_calculate_performance_level weak_at_remember)
  <= level_rank (_calculate_performance_level slow_and_improving).
Proof.
  apply (proj2 (level_monotone weak_at_remember slow_and_improving)).
  - cbn. lia.
  - cbn. lia.
  - vm_compute. discriminate.
Defined.

Lemma insert_desc_In {A} (key : A -> Q) (x a : A) (l : list A) :
  In x (Py.insert_desc key a l) <-> x = a \/ In x l.
Proof.
  induction l as [| y l IH]; cbn.
  - intuition congruence.
  - destruct (Py.ltb (key a) (key y)); cbn; rewrite ?IH; intuition congruence.
Qed.

Lemma sorted_desc_In {A} (key : A -> Q) (x : A) (l : list A) :
  In x (Py.sorted_desc key l) <-> In x l.
Proof.
  unfold Py.sorted_desc. induction l as [| a l IH]; cbn [fold_right].
  - reflexivity.
  - rewrite insert_desc_In, IH. cbn. intuition congruence.
Qed.

Lemma take_In {A} (n : nat) (x : A) (l : list A) :
  In x (Py.take n l) -> In x l.
Proof.
  unfold Py.take. intros H. rewrite <- (firstn_skipn n l).
  apply in_or_app. left. exact H.
Qed.

Lemma last_n_In {A} (n : nat) (x : A) (l : list A) :
  In x (Py.last_n n l) -> In x l.
Proof.
  unfold Py.last_n. intros H. rewrite <- (firstn_skipn (length l - n) l).
  apply in_or_app. right. exact H.
Qed.

Lemma wf_unique {V} (d : dict V) (k : string) (v1 v2 : V) :
  Dict.wf d -> In (k, v1) d -> In (k, v2) d -> v1 = v2.
Proof.
  unfold Dict.wf, Dict.keys.
  induction d as [| [k' v'] d IH]; cbn; [tauto |].
  intros Hwf H1 H2. apply List.NoDup_cons_iff in Hwf. destruct Hwf as [Hk Hwf].
  destruct H1 as [E1 | H1], H2 as [E2 | H2].
  - congruence.
  - injection E1 as -> ->. exfalso. apply Hk.
    apply in_map_iff. exists (k, v2). split; [reflexivity | exact H2].
  - injection E2 as -> ->. exfalso. apply Hk.
    apply in_map_iff. exists (k, v1). split; [reflexivity | exact H1].
  - exact (IH Hwf H1 H2).
Qed.

Lemma filtered_topic (f : string * Q -> bool) (l : dict Q) (t : string) :
  In t (map fst (List.filter f l)) -> exists m, In (t, m) l /\ f (t, m) = true.
Proof.
  intros H. apply in_map_iff in H. destruct H as ([t' m] & Ht & Hin).
  cbn in Ht. subst t'. apply filter_In in Hin. exists m. exact Hin.
Qed.

(** X12. [_identify_strengths_weaknesses] leaves a profile without
    topics as it is (the lists keep their old content). Otherwise it
    lists at most three strengths and three weaknesses; every strength
    is a topic of the profile with mastery above 0.7 and every weakness
    one with mastery below 0.6, so that no topic is both; the mastery
    maps and counters are not changed. *)
Theorem strengths_weaknesses_sound (p : LearnerProfile) :
  (topics_mastery p = [] -> _identify_strengths_weaknesses p = p)
  /\ (topics_mastery p <> [] ->
      (length (strengths (_identify_strengths_weaknesses p)) <= 3)%nat
      /\ (length (weaknesses (_identify_strengths_weaknesses p)) <= 3)%nat
      /\ (forall t, In t (strengths (_identify_strengths_weaknesses p)) ->
                    exists m, In (t, m) (topics_mastery p) /\ (7 # 10 < m)%Q)
      /\ (forall t, In t (weaknesses (_identify_strengths_weaknesses p)) ->
                    exists m, In (t, m) (topics_mastery p) /\ (m < 6 # 10)%Q)
      /\ (Dict.wf (topics_mastery p) ->
          forall t, In t (strengths (_identify_strengths_weaknesses p)) ->
                    ~ In t (weaknesses (_identify_strengths_weaknesses p))))
  /\ topics_mastery (_identify_strengths_weaknesses p) = topics_mastery p
  /\ bloom_performance (_identify_strengths_weaknesses p) = bloom_performance p.
Proof.
  split.
  { unfold _identify_strengths_weaknesses. intros ->. reflexivity. }
  split; [| destruct (identify_keeps_scores p) as (_ & _ & -> & ->); split; reflexivity].
  intros Hne.
  assert (Hs : strengths (_identify_strengths_weaknesses p)
               = map fst (List.filter (fun tm => Py.ltb (7 # 10) (snd tm))
                            (Py.take 3 (Py.sorted_desc snd (topics_mastery p))))).
  { unfold _identify_strengths_weaknesses.
    destruct (topics_mastery p); [congruence | reflexivity]. }
  assert (Hw : weaknesses (_identify_strengths_weaknesses p)
               = map fst (List.filter (fun tm => Py.ltb (snd tm) (6 # 10))
                            (Py.last_n 3 (Py.sorted_desc snd (topics_mastery p))))).
  { unfold _identify_strengths_weaknesses.
    destruct (topics_mastery p); [congruence | reflexivity]. }
  rewrite Hs, Hw.
  assert (Hstrong : forall t,
             In t (map fst (List.filter (fun tm => Py.ltb (7 # 10) (snd tm))
                              (Py.take 3 (Py.sorted_desc snd (topics_mastery p))))) ->
             exists m, In (t, m) (topics_mastery p) /\ (7 # 10 < m)%Q).
  { intros t Ht. apply filtered_topic in Ht. destruct Ht as (m & Hin & Hm).
    exists m. split.
    - apply take_In, sorted_desc_In in Hin. exact Hin.
    - apply ltb_lt in Hm. exact Hm. }
  assert (Hweak : forall t,
             In t (map fst (List.filter (fun tm => Py.ltb (snd tm) (6 # 10))
                              (Py.last_n 3 (Py.sorted_desc snd (topics_mastery p))))) ->
             exists m, In (t, m) (topics_mastery p) /\ (m < 6 # 10)%Q).
  { intros t Ht. apply filtered_topic in Ht. destruct Ht as (m & Hin & Hm).
    exists m. split.
    - apply last_n_In, sorted_desc_In in Hin. exact Hin.
    - apply ltb_lt in Hm. exact Hm. }
  split.
  { rewrite length_map.
    etransitivity; [apply List.filter_length_le |].
    unfold Py.take. rewrite length_firstn. lia. }
  split.
  { rewrite length_map.
    etransitivity; [apply List.filter_length_le |].
    apply last_n_length. }
  split; [exact Hstrong |].
  split; [exact Hweak |].
  intros Hwf t Hst Hwk.
  destruct (Hstrong t Hst) as (m1 & Hin1 & Hm1).
  destruct (Hweak t Hwk) as (m2 & Hin2 & Hm2).
  pose proof (wf_unique _ _ _ _ Hwf Hin1 Hin2) as E. subst m2. lra.
Qed.

End Levels.

(** ** Topics, question count and the rest of the configuration *)

Section ConfiguratorFacts.
Import DateTime Adaptive Spec Samples.

#[local] Set Warnings "-clear-no-such-hyp".

Lemma due_topics_keys (days_since_last : Z) (mastery : dict Q) :
  forall due,
    due_topics days_since_last mastery = Some due ->
    forall r, In r due -> In (rv_topic r) (Dict.keys mastery).
Proof.
  induction mastery as [| [topic m] mastery IH]; intros due H r Hr;
    cbn [due_topics] in H.
  - injection H as <-. destruct Hr.
  - destruct (Py.index repetition_intervals _) as [interval |];
      cbn [mbind option_bind] in H; [| discriminate H].
    destruct (due_topics days_since_last mastery) as [more |];
      cbn [mbind option_bind] in H; [| discriminate H].
    injection H as <-. cbn [Dict.keys map fst].
    destruct (interval <=? days_since_last).
    + destruct Hr as [<- | Hr]; [left; reflexivity |].
      right. exact (IH more eq_refl r Hr).
    + right. exact (IH more eq_refl r Hr).
Qed.

Lemma weak_topics_In (mastery : dict Q) (r : Review) :
  In r (weak_topics mastery) ->
  exists m, In (rv_topic r, m) mastery /\ (m < 6 # 10)%Q.
Proof.
  unfold weak_topics. intros H. apply in_map_iff in H.
  destruct H as ([t m] & <- & Hin). apply filter_In in Hin.
  destruct Hin as [Hin Hm]. exists m. split; [exact Hin |].
  apply ltb_lt in Hm. exact Hm.
Qed.

(** X13. The focus list that [_select_adaptive_topics] writes has at
    most five entries and every entry is a topic of the profile's
    mastery map; for a profile without a [last_session] every entry is
    a topic with mastery below 0.6. *)
Theorem focus_topics_sound (p : LearnerProfile) (now : datetime)
    (topics : list string) :
  focus_topics p now = Some topics ->
  (length topics <= 5)%nat
  /\ (forall t, In t topics -> In t (Dict.keys (topics_mastery p)))
  /\ (last_session p = None ->
      forall t, In t topics ->
                exists m, In (t, m) (topics_mastery p) /\ (m < 6 # 10)%Q).
Proof.
  unfold focus_topics. intros H.
  destruct (match last_session p with
            | Some last => due_topics (days (sub now last)) (topics_mastery p)
            | None => Some []
            end) as [spaced |] eqn:Hsp; cbn [mbind option_bind] in H;
    [| discriminate H].
  apply (inj Some) in H. subst topics.
  split.
  { rewrite length_map. unfold Py.take. rewrite length_firstn. lia. }
  split.
  - intros t Ht. apply in_map_iff in Ht. destruct Ht as (r & <- & Hr).
    apply take_In, sorted_desc_In, in_app_or in Hr. destruct Hr as [Hr | Hr].
    + destruct (weak_topics_In _ _ Hr) as (m & Hin & _).
      apply in_map_iff. exists (rv_topic r, m). split; [reflexivity | exact Hin].
    + destruct (last_session p) as [last |].
      * exact (due_topics_keys _ _ _ Hsp r Hr).
      * injection Hsp as <-. destruct Hr.
  - intros Hnone t Ht. rewrite Hnone in Hsp. injection Hsp as <-.
    apply in_map_iff in Ht. destruct Ht as (r & <- & Hr).
    apply take_In, sorted_desc_In, in_app_or in Hr. destruct Hr as [Hr | []].
    exact (weak_topics_In _ _ Hr).
Qed.

Lemma focus_topics_sound_witness :
  exists topics,
    focus_topics sample_profile noon = Some topics
    /\ (length topics <= 5)%nat.
Proof.
  destruct (focus_topics sample_profile noon) as [topics |] eqn:H.
  - exists topics. split; [reflexivity |].
    exact (proj1 (focus_topics_sound sample_profile noon topics H)).
  - vm_compute in H. discriminate H.
Defined.

Lemma max_bounds (a b : Q) : (a <= Py.max a b)%Q /\ (b <= Py.max a b)%Q
                             /\ ((Py.max a b == a)%Q \/ (Py.max a b == b)%Q).
Proof.
  unfold Py.max. destruct (Py.ltb a b) eqn:E.
  - apply ltb_lt in E. split; [lra |]. split; [lra |]. right. reflexivity.
  - apply ltb_ge in E. split; [lra |]. split; [lra |]. left. reflexivity.
Qed.

Lemma min_bounds (a b : Q) : (Py.min a b <= a)%Q /\ (Py.min a b <= b)%Q
                             /\ ((Py.min a b == a)%Q \/ (Py.min a b == b)%Q).
Proof.
  unfold Py.min. destruct (Py.ltb b a) eqn:E.
  - apply ltb_lt in E. split; [lra |]. split; [lra |]. right. reflexivity.
  - apply ltb_ge in E. split; [lra |]. split; [lra |]. left. reflexivity.
Qed.

(** X14. For a requested count that is a number between 5 and 20,
    [_adjust_question_count] returns, the count it leaves is again
    between 5 and 20 and at most 3 away from the requested one, and no
    other entry of the configuration is changed. *)
Theorem question_count_bounds (config : gmap string Value) (p : LearnerProfile)
    (n : Q) :
  as_number (default (VNum 10) (config !! "num_questions")) = Some n ->
  (5 <= n <= 20)%Q ->
  exists config' q,
    _adjust_question_count config p = Some config'
    /\ as_number (default (VNum 10) (config' !! "num_questions")) = Some q
    /\ (5 <= q <= 20)%Q
    /\ (n - 3 <= q <= n + 3)%Q
    /\ (forall k, k <> "num_questions" -> config' !! k = config !! k).
Proof.
  intros Hn Hr. unfold _adjust_question_count. rewrite Hn.
  pose proof (max_bounds 5 (n - 2)) as (M1 & M2 & [M3 | M3]);
    pose proof (min_bounds 20 (n + 2)) as (N1 & N2 & [N3 | N3]);
    pose proof (max_bounds 5 (n - 3)) as (M4 & M5 & [M6 | M6]);
    pose proof (min_bounds 20 (n + 3)) as (N4 & N5 & [N6 | N6]);
  repeat match goal with
         | |- context [if ?b then _ else _] => destruct b
         end; cbn [mbind option_bind];
    eexists _, _; (split; [reflexivity |]);
    rewrite ?lookup_insert_eq; cbn [default from_option id as_number];
    (split; [first [reflexivity | exact Hn] |]);
    (split; [lra |]); (split; [lra |]);
    intros k Hk; rewrite ?lookup_insert_ne by congruence; reflexivity.
Qed.

Lemma question_count_bounds_witness :
  exists config' q,
    _adjust_question_count ten_questions slow_and_improving = Some config'
    /\ as_number (default (VNum 10) (config' !! "num_questions")) = Some q
    /\ (5 <= q <= 20)%Q.
Proof.
  destruct (question_count_bounds ten_questions slow_and_improving 10)
    as (config' & q & H1 & H2 & H3 & _).
  - reflexivity.
  - lra.
  - exists config', q. repeat split; try assumption; apply H3.
Defined.

End ConfiguratorFacts.

(** ** The profile store over time *)

Section StoreFacts.
Import DateTime Adaptive Spec Samples.

#[local] Set Warnings "-clear-no-such-hyp".

(** No operation writes [preferred_question_types] or [user_id]. *)
Lemma identify_identity (p : LearnerProfile) :
  user_id (_identify_strengths_weaknesses p) = user_id p
  /\ preferred_question_types (_identify_strengths_weaknesses p)
     = preferred_question_types p.
Proof.
  unfold _identify_strengths_weaknesses.
  destruct (topics_mastery p); split; reflexivity.
Qed.

Lemma fold_sessions_identity (sessions : list SessionDict) :
  forall p,
    user_id (fold_left apply_session sessions p) = user_id p
    /\ preferred_question_types (fold_left apply_session sessions p)
       = preferred_question_types p.
Proof.
  induction sessions as [| s sessions IH]; intros p; cbn [fold_left].
  - split; reflexivity.
  - destruct (IH (apply_session p s)) as [-> ->]. split; reflexivity.
Qed.

Lemma update_identity (p : LearnerProfile) (h : HistoryDict) (now : datetime) :
  user_id (_update_profile_from_history p h now) = user_id p
  /\ preferred_question_types (_update_profile_from_history p h now)
     = preferred_question_types p.
Proof.
  unfold _update_profile_from_history, set_last_session.
  cbn [user_id preferred_question_types].
  set (p1 := match hd_recent_sessions h with
             | Some sessions => fold_left apply_session sessions p
             | None => p
             end).
  assert (H1 : user_id p1 = user_id p
               /\ preferred_question_types p1 = preferred_question_types p).
  { subst p1. destruct (hd_recent_sessions h); [apply fold_sessions_identity |].
    split; reflexivity. }
  destruct (identify_identity
              (if 0 <? total_questions_answered p1
               then set_velocity p1 (_calculate_learning_velocity h) else p1))
    as [-> ->].
  destruct (0 <? total_questions_answered p1); exact H1.
Qed.

Lemma apply_report_identity (p : LearnerProfile) (r : QuizReportDict)
    (now : datetime) :
  user_id (apply_report p r now) = user_id p
  /\ preferred_question_types (apply_report p r now)
     = preferred_question_types p.
Proof.
  unfold apply_report.
  destruct (identify_identity
              (mkProfile (user_id p)
                 (total_questions_answered p + default 0 (q_total_questions r))
                 (correct_answers p + default 0 (q_correct_answers r))
                 (blend_all (6 # 10) (4 # 10) (topics_mastery p)
                    (default [] (q_topic_scores r)))
                 (blend_all (6 # 10) (4 # 10) (bloom_performance p)
                    (default [] (q_bloom_scores r)))
                 (match q_average_time r with
                  | Some t =>
                      if Qeq_bool (average_time_per_question p) 0 then t
                      else ((7 # 10) * average_time_per_question p + (3 # 10) * t)%Q
                  | None => average_time_per_question p
                  end)
                 (learning_velocity p) (Some now) (strengths p) (weaknesses p)
                 (preferred_question_types p))) as [-> ->].
  split; reflexivity.
Qed.

Lemma reachable_identity (self : AdaptiveEngine) :
  reachable self ->
  forall uid p,
    learner_profiles self !! uid = Some p ->
    user_id p = uid /\ preferred_question_types p = [].
Proof.
  induction 1 as [| self self' config config' h n1 n2 _ IH Ha
                  | self uid0 r now _ IH
                  | self uid0 _ IH
                  | self self' d _ IH Hi]; intros uid p.
  - cbn. rewrite lookup_empty. discriminate.
  - rewrite adjust_config_unfold in Ha.
    destruct (adjusted_for _ config h n1 n2) as [c |];
      cbn [mbind option_bind] in Ha; [| discriminate Ha].
    apply (inj Some) in Ha. apply (f_equal fst) in Ha. cbn [fst] in Ha.
    subst self'. unfold store_profile. cbn [learner_profiles].
    set (u := default "anonymous" (hd_user_id h)).
    rewrite lookup_insert. case_decide.
    + intros [= <-]. destruct (update_identity
                                 (default (new_profile u) (learner_profiles self !! u))
                                 h n1) as [-> ->].
      subst uid. destruct (learner_profiles self !! u) as [q |] eqn:E; cbn.
      * exact (IH u q E).
      * split; reflexivity.
    + apply IH.
  - unfold update_user_model, get_or_create_profile.
    destruct (learner_profiles self !! uid0) as [q |] eqn:E;
      unfold store_profile; cbn [learner_profiles];
      rewrite lookup_insert; case_decide.
    + intros [= <-]. destruct (apply_report_identity q r now) as [-> ->].
      subst uid. exact (IH uid0 q E).
    + apply IH.
    + intros [= <-]. destruct (apply_report_identity (new_profile uid0) r now)
        as [-> ->]. subst uid. split; reflexivity.
    + rewrite lookup_insert_ne by assumption. apply IH.
  - unfold export_profile, get_or_create_profile.
    destruct (learner_profiles self !! uid0) as [q |] eqn:E; cbn [fst].
    + apply IH.
    + cbn [learner_profiles]. rewrite lookup_insert. case_decide.
      * intros [= <-]. subst uid. split; reflexivity.
      * apply IH.
  - unfold import_profile in Hi.
    destruct (pd_user_id d) as [u |]; cbn [mbind option_bind] in Hi;
      [| discriminate Hi].
    destruct (pd_last_session d) as [s |].
    + destruct (String.eqb s "").
      * cbn [mbind option_bind] in Hi. apply (inj Some) in Hi. subst self'.
        unfold store_profile. cbn [learner_profiles].
        rewrite lookup_insert. case_decide.
        -- intros [= <-]. subst uid. split; reflexivity.
        -- apply IH.
      * destruct (fromisoformat s) as [t |]; cbn [mbind option_bind] in Hi;
          [| discriminate Hi].
        apply (inj Some) in Hi. subst self'.
        unfold store_profile. cbn [learner_profiles].
        rewrite lookup_insert. case_decide.
        -- intros [= <-]. subst uid. split; reflexivity.
        -- apply IH.
    + cbn [mbind option_bind] in Hi. apply (inj Some) in Hi. subst self'.
      unfold store_profile. cbn [learner_profiles].
      rewrite lookup_insert. case_decide.
      * intros [= <-]. subst uid. split; reflexivity.
      * apply IH.
Qed.

(** What each step of [adjust_config] leaves alone. *)
Lemma difficulty_frame (config config' : gmap string Value)
    (level : PerformanceLevel) (p : LearnerProfile) :
  _adjust_difficulty_distribution config level p = Some config' ->
  forall k, k <> "difficulty_distribution" -> config' !! k = config !! k.
Proof.
  unfold _adjust_difficulty_distribution. intros H k Hk.
  destruct (adjusted_distribution level p); cbn [mbind option_bind] in H;
    [| discriminate H].
  apply (inj Some) in H. subst config'. apply lookup_insert_ne. congruence.
Qed.

Lemma topics_frame (config config' : gmap string Value) (p : LearnerProfile)
    (now : datetime) :
  _select_adaptive_topics config p now = Some config' ->
  forall k, k <> "focus_topics" -> config' !! k = config !! k.
Proof.
  unfold _select_adaptive_topics. intros H k Hk.
  destruct (focus_topics p now); cbn [mbind option_bind] in H;
    [| discriminate H].
  apply (inj Some) in H. subst config'. apply lookup_insert_ne. congruence.
Qed.

Lemma count_frame (config config' : gmap string Value) (p : LearnerProfile) :
  _adjust_question_count config p = Some config' ->
  forall k, k <> "num_questions" -> config' !! k = config !! k.
Proof.
  unfold _adjust_question_count. intros H k Hk.
  destruct (as_number (default (VNum 10) (config !! "num_questions"))) as [n |];
    repeat match type of H with
           | context [if ?b then _ else _] => destruct b
           end; cbn [mbind option_bind] in H; try congruence;
    apply (inj Some) in H; subst config';
    rewrite ?lookup_insert_ne by congruence; reflexivity.
Qed.

Lemma types_frame (config config' : gmap string Value) (p : LearnerProfile) :
  _select_question_types config p = Some config' ->
  (forall k, k <> "question_types" -> config' !! k = config !! k)
  /\ (preferred_question_types p = [] -> config' = config).
Proof.
  unfold _select_question_types. intros H.
  destruct (preferred_question_types p) as [| t ts].
  - apply (inj Some) in H. subst config'. split; reflexivity.
  - destruct (as_iterable _); cbn [mbind option_bind] in H; [| discriminate H].
    apply (inj Some) in H. subst config'. split; [| discriminate].
    intros k Hk. apply lookup_insert_ne. congruence.
Qed.

Lemma adjusted_for_frame (stored : option LearnerProfile)
    (config config' : gmap string Value) (h : HistoryDict) (n1 n2 : datetime) :
  adjusted_for stored config h n1 n2 = Some config' ->
  (forall k, k <> "difficulty_distribution" -> k <> "focus_topics" ->
             k <> "num_questions" -> k <> "question_types" ->
             config' !! k = config !! k)
  /\ (preferred_question_types
        (_update_profile_from_history
           (default (new_profile (default "anonymous" (hd_user_id h))) stored)
           h n1) = [] ->
      config' !! "question_types" = config !! "question_types").
Proof.
  unfold adjusted_for. intros H.
  destruct (_adjust_difficulty_distribution config _ _) as [c1 |] eqn:H1;
    cbn [mbind option_bind] in H; [| discriminate H].
  destruct (_select_adaptive_topics c1 _ _) as [c2 |] eqn:H2;
    cbn [mbind option_bind] in H; [| discriminate H].
  destruct (_adjust_question_count c2 _) as [c3 |] eqn:H3;
    cbn [mbind option_bind] in H; [| discriminate H].
  pose proof (difficulty_frame _ _ _ _ H1) as F1.
  pose proof (topics_frame _ _ _ _ H2) as F2.
  pose proof (count_frame _ _ _ H3) as F3.
  destruct (types_frame _ _ _ H) as [F4 F5].
  split.
  - intros k K1 K2 K3 K4.
    rewrite (F4 k K4), (F3 k K3), (F2 k K2), (F1 k K1). reflexivity.
  - intros Hpref. rewrite (F5 Hpref).
    rewrite F3, F2, F1 by discriminate. reflexivity.
Qed.

(** X15. [adjust_config] changes no entry of the configuration other
    than [difficulty_distribution], [focus_topics], [num_questions] and
    [question_types]; and on a store that the engine's own operations
    built it does not change [question_types] either, because no
    operation ever fills [preferred_question_types]: every stored
    profile has an empty list there and is stored under its own
    [user_id]. *)
Theorem question_types_untouched (self self' : AdaptiveEngine)
    (config config' : gmap string Value) (h : HistoryDict) (n1 n2 : datetime) :
  reachable self ->
  adjust_config self config h n1 n2 = Some (self', config') ->
  config' !! "question_types" = config !! "question_types"
  /\ (forall k, k <> "difficulty_distribution" -> k <> "focus_topics" ->
                k <> "num_questions" -> config' !! k = config !! k)
  /\ (forall uid p, learner_profiles self' !! uid = Some p ->
                    user_id p = uid /\ preferred_question_types p = []).
Proof.
  intros Hreach Ha.
  pose proof (reachable_identity self'
                (reachable_adjust _ _ _ _ _ _ _ Hreach Ha)) as Hid'.
  rewrite adjust_config_unfold in Ha.
  set (u := default "anonymous" (hd_user_id h)) in *.
  destruct (adjusted_for (learner_profiles self !! u) config h n1 n2)
    as [c |] eqn:Hc; cbn [mbind option_bind] in Ha; [| discriminate Ha].
  assert (c = config') by congruence. subst c.
  destruct (adjusted_for_frame _ _ _ _ _ _ Hc) as [Fr Fq].
  assert (Hq : config' !! "question_types" = config !! "question_types").
  { apply Fq. fold u.
    destruct (update_identity
                (default (new_profile u) (learner_profiles self !! u)) h n1)
      as [_ ->].
    destruct (learner_profiles self !! u) as [q |] eqn:E; cbn.
    - exact (proj2 (reachable_identity self Hreach u q E)).
    - reflexivity. }
  split; [exact Hq |].
  split; [| exact Hid'].
  intros k K1 K2 K3.
  destruct (String.eqb k "question_types") eqn:E.
  - apply String.eqb_eq in E. subst k. exact Hq.
  - apply String.eqb_neq in E. apply Fr; assumption.
Qed.

Lemma question_types_untouched_witness :
  exists self' config',
    adjust_config init default_config up_down_history noon noon
      = Some (self', config')
    /\ config' !! "question_types" = default_config !! "question_types".
Proof.
  destruct (adjust_config init default_config up_down_history noon noon)
    as [[self' config'] |] eqn:H.
  - exists self', config'. split; [reflexivity |].
    exact (proj1 (question_types_untouched init self' default_config config'
                    up_down_history noon noon reachable_init H)).
  - vm_compute in H. discriminate H.
Defined.

Lemma update_user_model_store_ok (self : AdaptiveEngine) (uid : string)
    (r : QuizReportDict) (now : datetime) :
  store_ok self -> report_ok r -> store_ok (update_user_model self uid r now).
Proof.
  intros Hs Hr u q. unfold update_user_model, get_or_create_profile.
  destruct (learner_profiles self !! uid) as [p |] eqn:E;
    unfold store_profile; cbn [learner_profiles];
    rewrite lookup_insert; case_decide.
  - intros [= <-]. apply apply_report_ok; [exact (Hs uid p E) | exact Hr].
  - apply Hs.
  - intros [= <-]. apply apply_report_ok; [apply new_profile_ok | exact Hr].
  - rewrite lookup_insert_ne by assumption. apply Hs.
Qed.

End StoreFacts.

(** ** The two engines together, as [app.py] drives them *)

Section Pipelines.
Import DateTime Adaptive Spec Samples.



(** X17. Submitting a quiz ([submit_quiz] in [app.py]): for every
    answer list, [generate_report] followed by [update_user_model]
    raises nothing and keeps a profile store that is within the profile
    invariant within it. *)
Theorem quiz_submission_pipeline (an : Analytics.AnalyticsEngine)
    (self : AdaptiveEngine) (now1 now2 : datetime) (quiz_id uid : string)
    (answers : list Analytics.AnswerData) (time_taken : option Z) :
  store_ok self ->
  exists an' r,
    Analytics.generate_report an now1 quiz_id answers time_taken = Some (an', r)
    /\ store_ok (update_user_model self uid (of_report r) now2).
Proof.
  intros Hs.
  destruct (generate_report_in_range an now1 quiz_id answers time_taken)
    as (an' & r & Hr & Hok).
  exists an', r. split; [exact Hr |].
  apply update_user_model_store_ok; assumption.
Qed.

Lemma quiz_submission_pipeline_witness :
  exists an' r,
    Analytics.generate_report Analytics.init noon "quiz-1"
      [answer true; answer false; answer true] (Some 90) = Some (an', r)
    /\ store_ok (update_user_model init "ann" (of_report r) noon).
Proof.
  apply (quiz_submission_pipeline Analytics.init init noon noon "quiz-1" "ann").
  intros uid p H. cbn in H. rewrite lookup_empty in H. discriminate H.
Defined.



(** X20. The learning velocity is 0 for a history without
    [recent_sessions] or with fewer than two sessions; when all
    sessions have the same accuracy it lies strictly between -0.1 and
    0.1, so that neither velocity rule of the question count fires. *)
Theorem velocity_zero (h : HistoryDict) :
  (hd_recent_sessions h = None -> _calculate_learning_velocity h = 0%Q)
  /\ (forall sessions, hd_recent_sessions h = Some sessions ->
                       Py.len sessions < 2 ->
                       _calculate_learning_velocity h = 0%Q)
  /\ (forall sessions c,
        hd_recent_sessions h = Some sessions ->
        Forall (fun s => default 0%Q (s_accuracy s) = c) sessions ->
        (- (1 # 10) < _calculate_learning_velocity h < 1 # 10)%Q
        /\ Py.ltb (1 # 10) (_calculate_learning_velocity h) = false
        /\ Py.ltb (_calculate_learning_velocity h) (- (1 # 10)) = false).
Proof.
  unfold _calculate_learning_velocity. split; [intros ->; reflexivity |]. split.
  - intros sessions -> Hlen. apply Z.ltb_lt in Hlen. rewrite Hlen. reflexivity.
  - intros sessions c -> Hc.
    assert (Hz : ((if Py.len sessions <? 2 then 0
                   else if Py.len (map (fun s => default 0%Q (s_accuracy s)) sessions) <? 2
                        then 0
                        else Py.polyfit_slope
                               (map (fun s => default 0%Q (s_accuracy s)) sessions))
                  == 0)%Q).
    { destruct (Py.len sessions <? 2); [reflexivity |].
      destruct (Py.len (map _ sessions) <? 2); [reflexivity |].
      apply (polyfit_constant c). apply Forall_map.
      eapply Forall_impl; [exact Hc |]. intros s Hs. cbn. symmetry. exact Hs. }
    split; [rewrite Hz; lra |].
    split.
    + destruct (Py.ltb (1 # 10) _) eqn:E; [| reflexivity].
      apply ltb_lt in E. rewrite Hz in E. lra.
    + destruct (Py.ltb _ (- (1 # 10))) eqn:E; [| reflexivity].
      apply ltb_lt in E. rewrite Hz in E. lra.
Qed.

End Pipelines.

(** ** The pattern flags on little or uniform data *)

Section PatternDefaults.
Import DateTime Analytics Spec Samples.

Lemma identify_patterns_parts (answers : list AnswerData) :
  answers <> [] ->
  exists r f g,
    rushing_check answers = Some r
    /\ halves_check answers = Some f
    /\ guessing_check answers = Some g
    /\ _identify_patterns answers
       = Some (mkPatterns r (fst (fst f)) g (consistent_check answers)
                 (snd f) (snd (fst f))).
Proof.
  intros Hne. unfold _identify_patterns.
  destruct answers as [| a answers]; [congruence |].
  destruct (rushing_check_defined (a :: answers)) as [r Hr].
  destruct (guessing_check_defined (a :: answers)) as [g Hg].
  assert (Hf : exists f, halves_check (a :: answers) = Some f).
  { destruct (Z_le_gt_dec 5 (Py.len (a :: answers))) as [H | H].
    - rewrite (halves_check_enough _ H). eexists. reflexivity.
    - rewrite halves_check_few by lia. eexists. reflexivity. }
  destruct Hf as [[[x y] z] Hf].
  exists r, (x, y, z), g. rewrite Hr, Hf, Hg. cbn [mbind option_bind fst snd].
  repeat split.
Qed.

Lemma changes_constant (b : bool) (cs : list bool) :
  Forall (eq b) cs -> changes cs = 0.
Proof.
  induction 1 as [| c cs <- Hcs IH]; [reflexivity |].
  destruct cs as [| c' cs']; [reflexivity |].
  cbn [changes] in *. rewrite IH.
  pose proof (Forall_inv Hcs) as <-. rewrite Bool.eqb_reflx. reflexivity.
Qed.

Lemma correctness_is_got_correct (a : AnswerData) :
  default false (is_correct a) = got_correct a.
Proof. unfold got_correct. destruct (is_correct a) as [[|] |]; reflexivity. Qed.

(** X21. The pattern flags default to false on missing data:
    [rushing] needs an answer with a [time_taken], [guessing] needs a
    multiple-choice answer, [consistent] needs three answers, and
    [fatigue], [declining] and [improving] need five. Three or more
    answers that are all correct, or all incorrect, are [consistent]
    and neither improving nor declining. *)
Theorem pattern_defaults (answers : list AnswerData) :
  exists p,
    _identify_patterns answers = Some p
    /\ (rushing p = true -> exists a, In a answers /\ time_taken a <> None)
    /\ (guessing p = true ->
        exists a, In a answers /\ question_type a = Some "multiple_choice")
    /\ (consistent p = true -> 3 <= Py.len answers)
    /\ (fatigue p = true \/ declining p = true \/ improving p = true ->
        5 <= Py.len answers)
    /\ (3 <= Py.len answers ->
        uniform true answers \/ uniform false answers ->
        consistent p = true /\ fatigue p = false /\ declining p = false
        /\ improving p = false).
Proof.
  destruct answers as [| a0 rest].
  { exists no_patterns. split; [reflexivity |]. cbn.
    repeat split; try discriminate; try (intros [H | [H | H]]; discriminate H).
    all: unfold Py.len in *; cbn in *; lia. }
  set (answers := a0 :: rest).
  destruct (identify_patterns_parts answers ltac:(discriminate))
    as (r & f & g & Hr & Hf & Hg & Hp).
  eexists. split; [exact Hp |].
  cbn [rushing guessing consistent fatigue declining improving].
  split.
  { intros ->. unfold rushing_check in Hr.
    destruct (omap time_taken answers) as [| t ts] eqn:E; [discriminate Hr |].
    assert (Hin : t ∈ omap time_taken answers) by (rewrite E; left).
    apply list_elem_of_omap in Hin. destruct Hin as (a & Ha & Ht).
    exists a. split; [apply list_elem_of_In; exact Ha | congruence]. }
  split.
  { intros ->. unfold guessing_check in Hg.
    destruct (List.filter _ answers) as [| m ms] eqn:E; [discriminate Hg |].
    assert (Hin : In m (List.filter
                          (fun a => match question_type a with
                                    | Some ty => String.eqb ty "multiple_choice"
                                    | None => false
                                    end) answers)) by (rewrite E; left; reflexivity).
    apply filter_In in Hin. destruct Hin as [Hin Hty].
    exists m. split; [exact Hin |].
    destruct (question_type m) as [ty |]; [| discriminate Hty].
    apply String.eqb_eq in Hty. congruence. }
  split.
  { unfold consistent_check. destruct (3 <=? Py.len answers) eqn:E.
    - intros _. apply Z.leb_le. exact E.
    - discriminate. }
  split.
  { intros Hflag. destruct (Z_le_gt_dec 5 (Py.len answers)) as [H | H];
      [exact H |].
    rewrite halves_check_few in Hf by lia. apply (inj Some) in Hf. subst f.
    cbn in Hflag. destruct Hflag as [E | [E | E]]; discriminate E. }
  intros H3 Hu.
  assert (Hcons : consistent_check answers = true).
  { unfold consistent_check. apply Z.leb_le in H3. rewrite H3.
    assert (Hch : exists b, Forall (eq b)
                              (map (fun a => default false (is_correct a)) answers)).
    { destruct Hu as [Hu | Hu]; [exists true | exists false];
        apply Forall_map; (eapply Forall_impl; [exact Hu |]);
        intros a Ha; cbn; rewrite correctness_is_got_correct; congruence. }
    destruct Hch as [b Hch]. rewrite (changes_constant b _ Hch).
    apply leb_le. apply Z.leb_le in H3.
    assert (0 <= inject_Z (Py.len (map (fun a => default false (is_correct a)) answers)))%Q.
    { change 0%Q with (inject_Z 0). rewrite <- Zle_Qle. unfold Py.len. lia. }
    change (inject_Z 0) with 0%Q. nra. }
  split; [exact Hcons |].
  destruct (Z_le_gt_dec 5 (Py.len answers)) as [H5 | H5].
  - rewrite (halves_check_enough _ H5) in Hf. apply (inj Some) in Hf. subst f.
    destruct (halves_nonempty answers H5) as [Hn1 Hn2].
    assert (Hacc : forall xs, xs <> [] ->
                     (uniform true xs -> (accuracy xs == 1)%Q)
                     /\ (uniform false xs -> (accuracy xs == 0)%Q)).
    { intros xs Hxs. unfold accuracy. split; intros Hx;
        rewrite (count_uniform _ xs Hx).
      - field. apply len_nonzero. exact Hxs.
      - change (inject_Z 0) with 0%Q. field. apply len_nonzero. exact Hxs. }
    assert (Heq : (accuracy (Py.take (length answers / 2) answers)
                   == accuracy (Py.drop (length answers / 2) answers))%Q).
    { destruct Hu as [Hu | Hu].
      - rewrite (proj1 (Hacc _ Hn1)), (proj1 (Hacc _ Hn2)); [reflexivity | |];
          unfold uniform, Py.take, Py.drop in *;
          [apply Forall_drop | apply Forall_take]; exact Hu.
      - rewrite (proj2 (Hacc _ Hn1)), (proj2 (Hacc _ Hn2)); [reflexivity | |];
          unfold uniform, Py.take, Py.drop in *;
          [apply Forall_drop | apply Forall_take]; exact Hu. }
    cbv zeta.
    destruct (Py.ltb (accuracy (Py.drop (length answers / 2) answers))
                (accuracy (Py.take (length answers / 2) answers) - (2 # 10))%Q)
      eqn:E1.
    { apply ltb_lt in E1. rewrite Heq in E1. lra. }
    destruct (Py.ltb (accuracy (Py.take (length answers / 2) answers) + (2 # 10))%Q
                (accuracy (Py.drop (length answers / 2) answers))) eqn:E2.
    { apply ltb_lt in E2. rewrite Heq in E2. lra. }
    repeat split.
  - rewrite halves_check_few in Hf by lia. apply (inj Some) in Hf. subst f.
    repeat split.
Qed.

End PatternDefaults.
